(** * InfraGenius tools: sandbox registry, deployment pipeline, reachability

    A shallow embedding of [src/tools/infra.py] and [src/tools/messaging.py].

    Every tool is a Python function that reads or writes the module-level
    dictionary [_sandboxes], talks to the E2B SDK, to [requests], to the
    clock and to standard output, and returns a string.  The embedding is a
    state-and-exception monad [Py] over the module globals and a trace of the
    calls that left the process; what the outside world answers is a [Host],
    a record of oracles that may look at the whole trace so far. *)

From Stdlib Require Import String Ascii ZArith List Bool Lia.
From Stdlib Require Import Floats DecimalString.
Import ListNotations.
Local Open Scope string_scope.
Local Open Scope Z_scope.

(** ** Python values *)

Module PyStr.

(** [chr(10)] and the backslash-n of the f-strings. *)
Definition nl : string := String (ascii_of_nat 10) EmptyString.

(** [str(n)] of an [int], as an f-string field renders it. *)
Definition of_int (n : Z) : string := NilZero.string_of_int (Z.to_int n).

(** Truth value of a [str]: every string but the empty one. *)
Definition truthy (s : string) : bool :=
  match s with
  | EmptyString => false
  | String _ _ => true
  end.

(** [sep.join(parts)]. *)
Fixpoint join (sep : string) (parts : list string) : string :=
  match parts with
  | [] => EmptyString
  | [p] => p
  | p :: rest => p ++ sep ++ join sep rest
  end.

(** [needle in hay] as a proposition. *)
Definition contains (needle hay : string) : Prop :=
  exists pre post, hay = pre ++ needle ++ post.

End PyStr.

(** An exception object: whether it is an instance of [Exception], which
    is what [except Exception] tests, its class name and [str(e)]. *)
Record exn : Type :=
  MkExn { is_exception : bool; exn_class : string; exn_text : string }.

(** An instance of a class that derives from [Exception]. *)
Definition Exn (cls text : string) : exn := MkExn true cls text.

(** An instance of a class that derives from [BaseException] only, such as
    [KeyboardInterrupt] and [SystemExit]. *)
Definition BaseExn (cls text : string) : exn := MkExn false cls text.

(** ** The collaborators' data *)

(** The object [Sandbox.create] hands back: the attribute the tools read and
    the identity of the live session. *)
Record Sandbox : Type := MkSandbox { sandbox_id : string; session : nat }.

(** What [sandbox.commands.run] returns. *)
Record CommandResult : Type :=
  MkResult { stdout : string; stderr : string; exit_code : Z }.

(** What [requests.get] returns; the tools read the status only. *)
Record Response : Type := MkResponse { status_code : Z }.

(** A call that leaves the process, in the order it was made. *)
Inductive event : Type :=
| Print (line : string)
| SandboxCreate (timeout : Z)
| CommandsRun (sb : Sandbox) (command : string) (timeout : option Z)
| RequestsGet (url : string) (timeout : Z) (allow_redirects : option bool)
| TimeTime
| TimeSleep (seconds : Z).

(** Calls that reach any remote party. *)
Definition is_remote (e : event) : bool :=
  match e with
  | SandboxCreate _ | CommandsRun _ _ _ | RequestsGet _ _ _ => true
  | _ => false
  end.

(** The shell commands sent to sandboxes, in order. *)
Definition commands_of (evs : list event) : list string :=
  flat_map (fun e => match e with
                     | CommandsRun _ c _ => [c]
                     | _ => []
                     end) evs.

(** The world outside the repository.  Each oracle sees the trace of the
    calls made before it, so two identical calls may be answered
    differently.  The last two fields belong to the interpreter: [sum] over
    a non-empty list of floats (compensated summation since Python 3.12) and
    the [.0f] format of a float. *)
Record Host : Type := MkHost {
  environ : string -> option string;
  installed : string -> bool;
  Sandbox_create : list event -> Z -> exn + Sandbox;
  commands_run :
    list event -> Sandbox -> string -> option Z -> exn + CommandResult;
  requests_get :
    list event -> string -> Z -> option bool -> exn + Response;
  time_time : list event -> float;
  float_sum : list float -> float;
  format_0f : float -> string
}.

(** ** Module globals *)

(** The dictionary stored under a name by [provision_sandbox]
    (keys "sandbox", "sandbox_id", "base_url", "created_at"). *)
Record Info : Type := MkInfo {
  info_sandbox : Sandbox;
  info_sandbox_id : string;
  info_base_url : string;
  info_created_at : float
}.

(** A Python [dict] with [str] keys: insertion-ordered, so an association
    list; assignment to a present key keeps its position. *)
Module Dict.
Section WithValue.
Context {V : Type}.

Definition t : Type := list (string * V).

Definition keys (d : t) : list string := map fst d.

Fixpoint get (k : string) (d : t) : option V :=
  match d with
  | [] => None
  | (k', v) :: d' => if String.eqb k' k then Some v else get k d'
  end.

Definition mem (k : string) (d : t) : bool :=
  match get k d with
  | Some _ => true
  | None => false
  end.

Fixpoint set (k : string) (v : V) (d : t) : t :=
  match d with
  | [] => [(k, v)]
  | (k', v') :: d' =>
      if String.eqb k' k then (k, v) :: d' else (k', v') :: set k v d'
  end.

(** Number of entries stored under [k]. *)
Definition count (k : string) (d : t) : nat :=
  length (filter (fun kv => String.eqb (fst kv) k) d).
End WithValue.
Arguments t : clear implicits.
End Dict.

Record State : Type := MkState {
  _sandboxes : Dict.t Info;
  _agent_client : option nat;
  _source_id : option string;
  trace : list event
}.

Definition with_sandboxes (d : Dict.t Info) (s : State) : State :=
  MkState d (_agent_client s) (_source_id s) (trace s).

Definition with_trace (tr : list event) (s : State) : State :=
  MkState (_sandboxes s) (_agent_client s) (_source_id s) tr.

(** State at interpreter start. *)
Definition initial : State := MkState [] None None [].

(** ** The monad of a Python call *)

Inductive outcome (A : Type) : Type :=
| Return (a : A)
| Raise (e : exn).
Arguments Return {A} a.
Arguments Raise {A} e.

Definition Py (A : Type) : Type := State -> outcome A * State.

Definition ret {A} (a : A) : Py A := fun s => (Return a, s).

Definition raise {A} (e : exn) : Py A := fun s => (Raise e, s).

Definition bind {A B} (m : Py A) (k : A -> Py B) : Py B :=
  fun s =>
    match m s with
    | (Return a, s') => k a s'
    | (Raise e, s') => (Raise e, s')
    end.

(** [try: body / except Exception as e: handler e].  An exception that is
    not an instance of [Exception] passes through to the caller.  Globals
    written before the exception stay written. *)
Definition try_except {A} (body : Py A) (handler : exn -> Py A) : Py A :=
  fun s =>
    match body s with
    | (Return a, s') => (Return a, s')
    | (Raise e, s') =>
        if is_exception e then handler e s' else (Raise e, s')
    end.

Declare Scope py_scope.
Delimit Scope py_scope with py.
Notation "x <- m ;; k" := (bind m (fun x => k))
  (at level 61, m at next level, right associativity) : py_scope.
Notation "m ;; k" := (bind m (fun _ => k))
  (at level 61, right associativity) : py_scope.
Local Open Scope py_scope.

(** The events a call appended to the trace. *)
Definition new_events {A} (m : Py A) (s : State) : list event :=
  skipn (length (trace s)) (trace (snd (m s))).

(** ** Primitive effects *)

Definition emit (e : event) : Py unit :=
  fun s => (Return tt, with_trace (trace s ++ [e]) s).

Definition print (line : string) : Py unit := emit (Print line).

Definition time_sleep (seconds : Z) : Py unit := emit (TimeSleep seconds).

(** [import m] inside a function body: fails when the package is absent. *)
Definition import_module (h : Host) (m : string) : Py unit :=
  fun s =>
    if installed h m then (Return tt, s)
    else (Raise (Exn "ModuleNotFoundError"
                     ("No module named '" ++ m ++ "'")), s).

(** An oracle call: logged whether it returns or raises. *)
Definition ask {A} (e : event) (answer : list event -> exn + A) : Py A :=
  fun s =>
    let s' := with_trace (trace s ++ [e]) s in
    match answer (trace s) with
    | inl err => (Raise err, s')
    | inr a => (Return a, s')
    end.

Definition call_Sandbox_create (h : Host) (timeout : Z) : Py Sandbox :=
  ask (SandboxCreate timeout) (fun tr => Sandbox_create h tr timeout).

Definition call_commands_run (h : Host) (sb : Sandbox) (command : string)
    (timeout : option Z) : Py CommandResult :=
  ask (CommandsRun sb command timeout)
      (fun tr => commands_run h tr sb command timeout).

Definition call_requests_get (h : Host) (url : string) (timeout : Z)
    (allow_redirects : option bool) : Py Response :=
  ask (RequestsGet url timeout allow_redirects)
      (fun tr => requests_get h tr url timeout allow_redirects).

Definition call_time_time (h : Host) : Py float :=
  ask TimeTime (fun tr => inr (time_time h tr)).

(** [_sandboxes[name] = info]. *)
Definition setitem_sandboxes (name : string) (info : Info) : Py unit :=
  fun s => (Return tt, with_sandboxes (Dict.set name info (_sandboxes s)) s).

(** Reading the global. *)
Definition get_sandboxes : Py (Dict.t Info) :=
  fun s => (Return (_sandboxes s), s).

(** [_sandboxes[name]]: a [KeyError] whose text is the key's [repr] when the
    key is absent. *)
Definition getitem_sandboxes (name : string) : Py Info :=
  fun s =>
    match Dict.get name (_sandboxes s) with
    | Some info => (Return info, s)
    | None => (Raise (Exn "KeyError" ("'" ++ name ++ "'")), s)
    end.

(** ** Float helpers of [check_latency] *)

(** [(stop - start) * 1000]. *)
Definition elapsed_ms (start stop : float) : float :=
  PrimFloat.mul (PrimFloat.sub stop start) 1000%float.

(** [min] and [max] keep the first of equal items and compare with [<]
    and [>]. *)
Definition py_min (first : float) (others : list float) : float :=
  fold_left (fun m x => if PrimFloat.ltb x m then x else m) others first.

Definition py_max (first : float) (others : list float) : float :=
  fold_left (fun m x => if PrimFloat.ltb m x then x else m) others first.

Definition float_of_len (n : nat) : float :=
  PrimFloat.of_uint63 (Uint63.of_Z (Z.of_nat n)).

(** [total / count] with [count] a length.  A zero divisor raises
    [ZeroDivisionError]; it occurs only for the empty list, whose sum is the
    integer 0, hence the text of the integer division. *)
Definition truediv (total : float) (count : nat) : Py float :=
  match count with
  | O => raise (Exn "ZeroDivisionError" "division by zero")
  | S _ => ret (PrimFloat.div total (float_of_len count))
  end.

(** [min(times)] and [max(times)]: [ValueError] on an empty list. *)
Definition extremum (pick : float -> list float -> float)
    (what : string) (times : list float) : Py float :=
  match times with
  | [] => raise (Exn "ValueError" (what ++ "() arg is an empty sequence"))
  | t :: ts => ret (pick t ts)
  end.

(** ** src/tools/infra.py *)

Definition provision_sandbox (h : Host) (name : string) : Py string :=
  import_module h "e2b_code_interpreter" ;;
  let api_key := environ h "E2B_API_KEY" in
  if negb (match api_key with Some k => PyStr.truthy k | None => false end)
  then ret "❌ E2B_API_KEY not set. Please configure your API key."
  else
    try_except
      (print ("🚀 Provisioning sandbox: " ++ name) ;;
       sandbox <- call_Sandbox_create h 600 ;;
       let sandbox_id := sandbox_id sandbox in
       let base_url := "https://8000-" ++ sandbox_id ++ ".e2b.app" in
       now <- call_time_time h ;;
       setitem_sandboxes name (MkInfo sandbox sandbox_id base_url now) ;;
       ret ("✅ Sandbox provisioned!" ++ PyStr.nl
            ++ "📦 Name: " ++ name ++ PyStr.nl
            ++ "🆔 ID: " ++ sandbox_id ++ PyStr.nl
            ++ "🔗 URL: " ++ base_url))
      (fun e => ret ("❌ Failed to provision sandbox: " ++ exn_text e)).

(** One turn of the loop of [list_sandboxes]. *)
Definition list_entry (output : string) (item : string * Info) : string :=
  let '(name, info) := item in
  let output := output ++ "• **" ++ name ++ "**" ++ PyStr.nl in
  let output := output ++ "  ID: " ++ info_sandbox_id info ++ PyStr.nl in
  output ++ "  URL: " ++ info_base_url info ++ PyStr.nl ++ PyStr.nl.

Definition list_sandboxes : Py string :=
  sandboxes <- get_sandboxes ;;
  match sandboxes with
  | [] => ret "📭 No active sandboxes. Use provision_sandbox() to create one."
  | _ :: _ =>
      let output := "📦 **Active Sandboxes:**" ++ PyStr.nl ++ PyStr.nl in
      ret (fold_left list_entry sandboxes output)
  end.

Definition run_command (h : Host) (sandbox_name command : string)
    : Py string :=
  sandboxes <- get_sandboxes ;;
  if negb (Dict.mem sandbox_name sandboxes)
  then ret ("❌ Sandbox '" ++ sandbox_name ++ "' not found.")
  else
    info <- getitem_sandboxes sandbox_name ;;
    let sandbox := info_sandbox info in
    try_except
      (print ("⚡ Running: " ++ command) ;;
       result <- call_commands_run h sandbox command None ;;
       let output := EmptyString in
       let output :=
         if PyStr.truthy (stdout result)
         then output ++ "📤 stdout:" ++ PyStr.nl ++ stdout result ++ PyStr.nl
         else output in
       let output :=
         if PyStr.truthy (stderr result)
         then output ++ "📤 stderr:" ++ PyStr.nl ++ stderr result ++ PyStr.nl
         else output in
       let output :=
         output ++ "🔢 Exit code: " ++ PyStr.of_int (exit_code result) in
       ret ((if exit_code result =? 0 then "✅" else "⚠️") ++ " " ++ output))
      (fun e => ret ("❌ Command failed: " ++ exn_text e)).

Definition clone_command (repo_url : string) : string :=
  "git clone " ++ repo_url ++ " /home/user/app".
Definition install_command : string := "cd /home/user/app && npm install".
Definition build_command : string := "cd /home/user/app && npm run build".
Definition serve_command : string :=
  "cd /home/user/app/dist && nohup python3 -m http.server 8000 > /tmp/server.log 2>&1 &".
Definition probe_command : string :=
  "ps aux | grep 'http.server' | grep -v grep".

Definition deploy_app (h : Host) (sandbox_name repo_url : string)
    : Py string :=
  sandboxes <- get_sandboxes ;;
  if negb (Dict.mem sandbox_name sandboxes)
  then ret ("❌ Sandbox '" ++ sandbox_name ++ "' not found. Provision one first.")
  else
    info <- getitem_sandboxes sandbox_name ;;
    let sandbox := info_sandbox info in
    info' <- getitem_sandboxes sandbox_name ;;
    let base_url := info_base_url info' in
    try_except
      (let steps : list string := [] in
       print "1️⃣ Cloning repository..." ;;
       result <- call_commands_run h sandbox (clone_command repo_url) None ;;
       if negb (exit_code result =? 0)
       then ret ("❌ Clone failed: " ++ stderr result)
       else
       let steps := (steps ++ ["✅ Cloned"])%list in
       print "2️⃣ Installing dependencies..." ;;
       result <- call_commands_run h sandbox install_command (Some 120) ;;
       if negb (exit_code result =? 0)
       then ret ("❌ Install failed: " ++ stderr result)
       else
       let steps := (steps ++ ["✅ Installed"])%list in
       print "3️⃣ Building..." ;;
       result <- call_commands_run h sandbox build_command (Some 120) ;;
       if negb (exit_code result =? 0)
       then ret ("❌ Build failed: " ++ stderr result)
       else
       let steps := (steps ++ ["✅ Built"])%list in
       print "4️⃣ Starting server..." ;;
       call_commands_run h sandbox serve_command None ;;
       time_sleep 3 ;;
       result <- call_commands_run h sandbox probe_command None ;;
       if negb (exit_code result =? 0)
       then ret "❌ Server failed to start"
       else
       let steps := (steps ++ ["✅ Server running"])%list in
       ret ("🎉 **Deployment Complete!**" ++ PyStr.nl ++ PyStr.nl
            ++ PyStr.join PyStr.nl steps ++ PyStr.nl ++ PyStr.nl
            ++ "🔗 **Live URL:** " ++ base_url))
      (fun e => ret ("❌ Deployment failed: " ++ exn_text e)).

Definition verify_url (h : Host) (url : string) : Py string :=
  import_module h "requests" ;;
  try_except
    (print ("🔍 Verifying " ++ url ++ "...") ;;
     start <- call_time_time h ;;
     response <- call_requests_get h url 10 (Some true) ;;
     stop <- call_time_time h ;;
     let elapsed := elapsed_ms start stop in
     if status_code response =? 200
     then ret ("✅ URL is LIVE!" ++ PyStr.nl
               ++ "🔗 " ++ url ++ PyStr.nl
               ++ "📊 HTTP " ++ PyStr.of_int (status_code response) ++ PyStr.nl
               ++ "⏱️ " ++ format_0f h elapsed ++ "ms")
     else ret ("⚠️ HTTP " ++ PyStr.of_int (status_code response) ++ PyStr.nl
               ++ "🔗 " ++ url ++ PyStr.nl
               ++ "⏱️ " ++ format_0f h elapsed ++ "ms"))
    (fun e => ret ("❌ Failed: " ++ exn_text e)).

(** [for i in range(samples)]: the loop body, [n] turns left. *)
Fixpoint sample_loop (h : Host) (url : string) (n : nat) (times : list float)
    : Py (list float) :=
  match n with
  | O => ret times
  | S n' =>
      start <- call_time_time h ;;
      call_requests_get h url 10 None ;;
      stop <- call_time_time h ;;
      let elapsed := elapsed_ms start stop in
      sample_loop h url n' (times ++ [elapsed])%list
  end.

Definition check_latency (h : Host) (url : string) (samples : Z)
    : Py string :=
  import_module h "requests" ;;
  try_except
    (times <- sample_loop h url (Z.to_nat samples) [] ;;
     avg <- truediv (float_sum h times) (length times) ;;
     lo <- extremum py_min "min" times ;;
     hi <- extremum py_max "max" times ;;
     ret ("📊 Latency: " ++ format_0f h avg ++ "ms avg ("
          ++ format_0f h lo ++ "-" ++ format_0f h hi ++ "ms)"))
    (fun e => ret ("❌ Failed: " ++ exn_text e)).

(** ** src/tools/messaging.py *)

Definition set_agent_context (agent_client : nat) (source_id : string)
    : Py unit :=
  fun s =>
    (Return tt,
     MkState (_sandboxes s) (Some agent_client) (Some source_id) (trace s)).

Definition send_message (text : string) : Py string :=
  ret ("Message sent: " ++ text).

(** ** The tools as the agent framework sees them *)

Inductive Tool : Type :=
| ProvisionSandbox (name : string)
| ListSandboxes
| RunCommand (sandbox_name command : string)
| DeployApp (sandbox_name repo_url : string)
| VerifyUrl (url : string)
| CheckLatency (url : string) (samples : Z)
| SendMessage (text : string).

Definition invoke (h : Host) (t : Tool) : Py string :=
  match t with
  | ProvisionSandbox name => provision_sandbox h name
  | ListSandboxes => list_sandboxes
  | RunCommand sandbox_name command => run_command h sandbox_name command
  | DeployApp sandbox_name repo_url => deploy_app h sandbox_name repo_url
  | VerifyUrl url => verify_url h url
  | CheckLatency url samples => check_latency h url samples
  | SendMessage text => send_message text
  end.

Definition is_provision (t : Tool) : bool :=
  match t with
  | ProvisionSandbox _ => true
  | _ => false
  end.

(** * Vocabulary of the statements

    The traces on which the oracles are consulted during each tool, the
    messages the tools build, and stub hosts for concrete runs. *)

(** ** Handlers *)

(** What a tool whose handler is [return label + str(e)] gives its caller
    when its [try] block raises [e]: the string for an instance of
    [Exception], the exception itself otherwise. *)
Definition reported (label : string) (e : exn) : outcome string :=
  if is_exception e then Return (label ++ exn_text e) else Raise e.

(** ** provision_sandbox *)

(** [bool(os.environ.get("E2B_API_KEY"))]. *)
Definition has_credential (h : Host) : bool :=
  match environ h "E2B_API_KEY" with
  | Some k => PyStr.truthy k
  | None => false
  end.

(** The trace [Sandbox.create] is answered on. *)
Definition create_history (name : string) (s : State) : list event :=
  (trace s ++ [Print ("🚀 Provisioning sandbox: " ++ name)])%list.

(** The trace the creation time is read on. *)
Definition created_at_history (name : string) (s : State) : list event :=
  (create_history name s ++ [SandboxCreate 600])%list.

(** The record [provision_sandbox] stores for a sandbox created at [now]. *)
Definition info_of (sb : Sandbox) (now : float) : Info :=
  MkInfo sb (sandbox_id sb) ("https://8000-" ++ sandbox_id sb ++ ".e2b.app") now.

(** The string returned on success. *)
Definition provisioned_message (name : string) (sb : Sandbox) : string :=
  "✅ Sandbox provisioned!" ++ PyStr.nl
  ++ "📦 Name: " ++ name ++ PyStr.nl
  ++ "🆔 ID: " ++ sandbox_id sb ++ PyStr.nl
  ++ "🔗 URL: " ++ "https://8000-" ++ sandbox_id sb ++ ".e2b.app".

(** A computation preserves the registry when no run of it changes
    [_sandboxes], whether it returns or raises. *)
Definition preserves_registry {A} (m : Py A) : Prop :=
  forall s, _sandboxes (snd (m s)) = _sandboxes s.

(** ** list_sandboxes *)

(** The lines [list_sandboxes] prints for one record. *)
Definition entry_text (item : string * Info) : string :=
  "• **" ++ fst item ++ "**" ++ PyStr.nl
  ++ "  ID: " ++ info_sandbox_id (snd item) ++ PyStr.nl
  ++ "  URL: " ++ info_base_url (snd item) ++ PyStr.nl ++ PyStr.nl.

(** Concatenation of a list of strings. *)
Definition flatten (parts : list string) : string :=
  fold_right append EmptyString parts.

(** The first line of a non-empty listing. *)
Definition listing_header : string :=
  "📦 **Active Sandboxes:**" ++ PyStr.nl ++ PyStr.nl.

(** Calling [provision_sandbox] for each name in turn: the results and the
    final state. *)
Fixpoint provision_all (h : Host) (names : list string) (s : State)
    : list (outcome string) * State :=
  match names with
  | [] => ([], s)
  | name :: rest =>
      let (r, s1) := provision_sandbox h name s in
      let (rs, s2) := provision_all h rest s1 in
      (r :: rs, s2)
  end.

(** The call for [name] returned the success message. *)
Definition provisioned (name : string) (r : outcome string) : Prop :=
  exists sb, r = Return (provisioned_message name sb).

(** ** run_command and deploy_app *)

(** The trace [commands.run] is answered on in [run_command]. *)
Definition run_history (command : string) (s : State) : list event :=
  (trace s ++ [Print ("⚡ Running: " ++ command)])%list.

(** The trace each pipeline command is answered on. *)
Definition clone_history (s : State) : list event :=
  (trace s ++ [Print "1️⃣ Cloning repository..."])%list.

Definition install_history (sb : Sandbox) (repo_url : string) (s : State)
    : list event :=
  ((clone_history s ++ [CommandsRun sb (clone_command repo_url) None])
     ++ [Print "2️⃣ Installing dependencies..."])%list.

Definition build_history (sb : Sandbox) (repo_url : string) (s : State)
    : list event :=
  ((install_history sb repo_url s
      ++ [CommandsRun sb install_command (Some 120)])
     ++ [Print "3️⃣ Building..."])%list.

Definition serve_history (sb : Sandbox) (repo_url : string) (s : State)
    : list event :=
  ((build_history sb repo_url s
      ++ [CommandsRun sb build_command (Some 120)])
     ++ [Print "4️⃣ Starting server..."])%list.

Definition probe_history (sb : Sandbox) (repo_url : string) (s : State)
    : list event :=
  ((serve_history sb repo_url s ++ [CommandsRun sb serve_command None])
     ++ [TimeSleep 3])%list.

(** The string returned when the whole pipeline succeeded. *)
Definition deployed_message (base_url : string) : string :=
  "🎉 **Deployment Complete!**" ++ PyStr.nl ++ PyStr.nl
  ++ "✅ Cloned" ++ PyStr.nl ++ "✅ Installed" ++ PyStr.nl
  ++ "✅ Built" ++ PyStr.nl ++ "✅ Server running" ++ PyStr.nl ++ PyStr.nl
  ++ "🔗 **Live URL:** " ++ base_url.

(** An answer with exit code 0. *)
Definition exits_zero (a : exn + CommandResult) : Prop :=
  exists r, a = inr r /\ exit_code r = 0.

(** ** verify_url *)

(** The traces on which the clock and the HTTP client are answered. *)
Definition verify_start_history (url : string) (s : State) : list event :=
  (trace s ++ [Print ("🔍 Verifying " ++ url ++ "...")])%list.

Definition verify_get_history (url : string) (s : State) : list event :=
  (verify_start_history url s ++ [TimeTime])%list.

Definition verify_stop_history (url : string) (s : State) : list event :=
  (verify_get_history url s ++ [RequestsGet url 10 (Some true)])%list.

(** The latency as both messages print it. *)
Definition verify_latency (h : Host) (url : string) (s : State) : string :=
  format_0f h (elapsed_ms (time_time h (verify_start_history url s))
                          (time_time h (verify_stop_history url s)))
  ++ "ms".

(** The message for status 200. *)
Definition live_message (h : Host) (url : string) (s : State) : string :=
  "✅ URL is LIVE!" ++ PyStr.nl ++ "🔗 " ++ url ++ PyStr.nl
  ++ "📊 HTTP 200" ++ PyStr.nl ++ "⏱️ " ++ verify_latency h url s.

(** The message for any other status. *)
Definition warning_message (h : Host) (url : string) (s : State)
    (status : Z) : string :=
  "⚠️ HTTP " ++ PyStr.of_int status ++ PyStr.nl
  ++ "🔗 " ++ url ++ PyStr.nl ++ "⏱️ " ++ verify_latency h url s.

(** ** Imports and results *)

(** The package a tool imports in its body, before its [try] block. *)
Definition imports (t : Tool) : option string :=
  match t with
  | ProvisionSandbox _ => Some "e2b_code_interpreter"
  | VerifyUrl _ | CheckLatency _ _ => Some "requests"
  | _ => None
  end.

(** The call returns a string to its caller instead of raising. *)
Definition returns_string (m : Py string) (s : State) : Prop :=
  exists msg, fst (m s) = Return msg.

(** The sandbox SDK and the HTTP client raise instances of [Exception]
    only. *)
Definition raises_exceptions_only (h : Host) : Prop :=
  (forall tr timeout e,
      Sandbox_create h tr timeout = inl e -> is_exception e = true)
  /\ (forall tr sb command timeout e,
        commands_run h tr sb command timeout = inl e ->
        is_exception e = true)
  /\ (forall tr url timeout redirects e,
        requests_get h tr url timeout redirects = inl e ->
        is_exception e = true).

(** Whatever the computation raises is an instance of [Exception]. *)
Definition ordinary {A} (m : Py A) : Prop :=
  forall s e s', m s = (Raise e, s') -> is_exception e = true.

(** No instance of [Exception] reaches the caller of [m], and on a host
    that raises such instances only the caller gets a string. *)
Definition settles (h : Host) (m : Py string) (s : State) : Prop :=
  (forall e, fst (m s) = Raise e -> is_exception e = false)
  /\ (raises_exceptions_only h -> returns_string m s).

(** ** Stub hosts for concrete runs *)

Module Demo.

(** A clock that ticks once per logged call. *)
Definition clock (tr : list event) : float :=
  PrimFloat.of_uint63 (Uint63.of_Z (Z.of_nat (length tr))).

(** A stand-in for the [.0f] format: the sign of the value. *)
Definition render (x : float) : string :=
  if PrimFloat.ltb x 0%float then "-1" else "1".

Definition host (key : option string) (have : string -> bool)
    (create : list event -> exn + Sandbox)
    (run : string -> exn + CommandResult)
    (get : string -> exn + Response) : Host :=
  MkHost (fun var => if String.eqb var "E2B_API_KEY" then key else None)
         have
         (fun tr _ => create tr)
         (fun _ _ command _ => run command)
         (fun _ url _ _ => get url)
         clock (fun xs => fold_left PrimFloat.add xs 0%float) render.

(** Each creation yields a new session of the same sandbox id. *)
Definition create_ok (tr : list event) : exn + Sandbox :=
  inr (MkSandbox "ib3k9" (length tr)).

(** The provider rejects every creation. *)
Definition create_fails (tr : list event) : exn + Sandbox :=
  inl (Exn "SandboxException" "401: Unauthorized").

Definition run_ok (command : string) : exn + CommandResult :=
  inr (MkResult "done" EmptyString 0).

Definition get_ok (url : string) : exn + Response := inr (MkResponse 200).

Definition everything (m : string) : bool := true.

Definition nothing (m : string) : bool := false.

(** Credential set, both packages installed, every call succeeds. *)
Definition healthy : Host :=
  host (Some "e2b_key") everything create_ok run_ok get_ok.

(** [E2B_API_KEY] unset. *)
Definition no_key : Host :=
  host None everything create_ok run_ok get_ok.

Definition create_down : Host :=
  host (Some "e2b_key") everything create_fails run_ok get_ok.

(** Neither [e2b_code_interpreter] nor [requests] is installed. *)
Definition bare : Host :=
  host (Some "e2b_key") nothing create_ok run_ok get_ok.

(** Every command succeeds but [failing], which is answered by [r]. *)
Definition run_but (failing : string) (r : CommandResult) (command : string)
    : exn + CommandResult :=
  if String.eqb command failing then inr r else run_ok command.

Definition repo : string := "https://github.com/acme/site".

Definition clone_denied : Host :=
  host (Some "e2b_key") everything create_ok
       (run_but (clone_command repo)
                (MkResult EmptyString "fatal: repository not found" 128))
       get_ok.

Definition install_broken : Host :=
  host (Some "e2b_key") everything create_ok
       (run_but install_command (MkResult EmptyString "npm ERR! code E404" 1))
       get_ok.

Definition build_broken : Host :=
  host (Some "e2b_key") everything create_ok
       (run_but build_command (MkResult EmptyString "vite: not found" 127))
       get_ok.

(** The launch itself reports exit code 1, the probe finds the server. *)
Definition launch_nonzero : Host :=
  host (Some "e2b_key") everything create_ok
       (run_but serve_command (MkResult EmptyString EmptyString 1))
       get_ok.

Definition probe_empty : Host :=
  host (Some "e2b_key") everything create_ok
       (run_but probe_command (MkResult EmptyString EmptyString 1))
       get_ok.

(** The registry after one provision of "web"; the state is the same on
    every host above. *)
Definition one_sandbox : State :=
  snd (provision_sandbox healthy "web" initial).

Definition web : Sandbox := MkSandbox "ib3k9" 1.

End Demo.

(** * Vocabulary of the further properties *)

(** ** The pipeline of deploy_app *)

(** The five commands of [deploy_app] as sent to sandbox [sb]: install and
    build carry [timeout=120], the others no timeout. *)
Definition pipeline (sb : Sandbox) (repo_url : string) : list event :=
  [CommandsRun sb (clone_command repo_url) None;
   CommandsRun sb install_command (Some 120);
   CommandsRun sb build_command (Some 120);
   CommandsRun sb serve_command None;
   CommandsRun sb probe_command None].

(** An answer that is an exception [e]. *)
Definition raises (a : exn + CommandResult) (e : exn) : Prop := a = inl e.

(** ** The sampling loop of check_latency *)

(** The calls one turn of the loop makes. *)
Definition sample_block (url : string) : list event :=
  [TimeTime; RequestsGet url 10 None; TimeTime].

(** The calls of the first [i] turns. *)
Fixpoint sample_blocks (url : string) (i : nat) : list event :=
  match i with
  | O => []
  | S i' => (sample_block url ++ sample_blocks url i')%list
  end.

(** The trace on which the GET of turn [i] (from 0) is answered, when the
    loop starts on trace [tr]. *)
Definition sample_get_history (url : string) (tr : list event) (i : nat)
    : list event :=
  (tr ++ sample_blocks url i ++ [TimeTime])%list.

(** The GET of turn [i] returns a response. *)
Definition answered (h : Host) (url : string) (tr : list event) (i : nat)
    : Prop :=
  exists resp,
    requests_get h (sample_get_history url tr i) url 10 None = inr resp.

(** The latency turn [i] measures: the clock after its GET minus the clock
    before it, in milliseconds. *)
Definition sample_time (h : Host) (url : string) (tr : list event) (i : nat)
    : float :=
  elapsed_ms
    (time_time h (tr ++ sample_blocks url i))
    (time_time h (tr ++ sample_blocks url i
                     ++ [TimeTime; RequestsGet url 10 None])).

(** The latencies of turns 0 to [n - 1], in order. *)
Definition sample_times (h : Host) (url : string) (tr : list event) (n : nat)
    : list float :=
  map (sample_time h url tr) (seq 0 n).

(** The string [check_latency] returns for a non-empty list of samples. *)
Definition latency_message (h : Host) (times : list float) : string :=
  match times with
  | [] => EmptyString
  | t :: ts =>
      "📊 Latency: "
      ++ format_0f h (PrimFloat.div (float_sum h times)
                                    (float_of_len (length times)))
      ++ "ms avg (" ++ format_0f h (py_min t ts) ++ "-"
      ++ format_0f h (py_max t ts) ++ "ms)"
  end.

(** ** The messaging context *)

(** The two globals of [messaging.py]. *)
Definition context (s : State) : option nat * option string :=
  (_agent_client s, _source_id s).

(** A computation keeps the messaging context. *)
Definition preserves_context {A} (m : Py A) : Prop :=
  forall s, context (snd (m s)) = context s.

(** The framework calling one tool after another; a tool that raises does
    not stop the next call. *)
Definition invoke_all (h : Host) (tools : list Tool) (s : State) : State :=
  fold_left (fun s t => snd (invoke h t s)) tools s.

(** ** Further stub hosts *)

Module Stub.

(** [E2B_API_KEY] is set to the empty string. *)
Definition blank_key : Host :=
  Demo.host (Some EmptyString) Demo.everything Demo.create_ok Demo.run_ok
    Demo.get_ok.

(** Every command raises. *)
Definition run_raises (command : string) : exn + CommandResult :=
  inl (Exn "TimeoutException" "context deadline exceeded").

Definition sandbox_gone : Host :=
  Demo.host (Some "e2b_key") Demo.everything Demo.create_ok run_raises
    Demo.get_ok.

(** Only the launch command raises. *)
Definition launch_raises : Host :=
  Demo.host (Some "e2b_key") Demo.everything Demo.create_ok
    (fun command =>
       if String.eqb command serve_command then run_raises command
       else Demo.run_ok command)
    Demo.get_ok.

(** The number of GETs already on a trace. *)
Definition gets_so_far (tr : list event) : nat :=
  length (filter (fun e => match e with
                           | RequestsGet _ _ _ => true
                           | _ => false
                           end) tr).

(** The first two GETs are answered, every later one times out. *)
Definition third_get_fails : Host :=
  MkHost (fun _ => None) Demo.everything
         (fun tr _ => Demo.create_ok tr)
         (fun _ _ command _ => Demo.run_ok command)
         (fun tr _ _ _ =>
            if Nat.ltb (gets_so_far tr) 2 then inr (MkResponse 200)
            else inl (Exn "ReadTimeout" "read timed out"))
         Demo.clock (fun xs => fold_left PrimFloat.add xs 0%float)
         Demo.render.

(** [E2B_API_KEY] unset and no package installed. *)
Definition no_key_no_sdk : Host :=
  Demo.host None Demo.nothing Demo.create_ok Demo.run_ok Demo.get_ok.

(** The user interrupts every remote call: the SDK and the HTTP client
    raise [KeyboardInterrupt("stop")]. *)
Definition interrupted : Host :=
  Demo.host (Some "e2b_key") Demo.everything
    (fun _ => inl (BaseExn "KeyboardInterrupt" "stop"))
    (fun _ => inl (BaseExn "KeyboardInterrupt" "stop"))
    (fun _ => inl (BaseExn "KeyboardInterrupt" "stop")).

(** The GET itself fails. *)
Definition unreachable : Host :=
  Demo.host None Demo.everything Demo.create_ok Demo.run_ok
    (fun _ => inl (Exn "ConnectionError" "connection refused")).

End Stub.

(** * Properties *)

(** ** Strings *)

Lemma append_nil_right (a : string) : a ++ EmptyString = a.
Proof. induction a as [|c a IH]; simpl; [reflexivity | now rewrite IH]. Qed.

Lemma append_associative (a b c : string) : (a ++ b) ++ c = a ++ (b ++ c).
Proof. induction a as [|x a IH]; simpl; [reflexivity | now rewrite IH]. Qed.

Lemma contains_after (pre x : string) : PyStr.contains x (pre ++ x).
Proof. exists pre, EmptyString. now rewrite append_nil_right. Qed.

Lemma contains_between (pre x post : string) :
  PyStr.contains x (pre ++ x ++ post).
Proof. now exists pre, post. Qed.

Example of_int_renders :
  PyStr.of_int 0 = "0" /\ PyStr.of_int 128 = "128" /\ PyStr.of_int (-1) = "-1".
Proof. repeat split. Qed.

Example join_renders :
  PyStr.join ", " ["a"; "b"; "c"] = "a, b, c" /\ PyStr.join ", " [] = EmptyString.
Proof. split; reflexivity. Qed.

(** ** Dictionaries *)

Section DictFacts.
Context {V : Type}.
Implicit Types (d : Dict.t V) (k : string) (v : V).

Lemma dict_get_set_same k v d : Dict.get k (Dict.set k v d) = Some v.
Proof.
  induction d as [|[k' v'] d IH]; simpl.
  - now rewrite String.eqb_refl.
  - destruct (String.eqb k' k) eqn:E; simpl.
    + now rewrite String.eqb_refl.
    + now rewrite E.
Qed.

Lemma dict_get_set_other k k' v d :
  k' <> k -> Dict.get k' (Dict.set k v d) = Dict.get k' d.
Proof.
  intros Hne. induction d as [|[k0 v0] d IH]; simpl.
  - apply String.eqb_neq in Hne. rewrite String.eqb_sym in Hne.
    now rewrite Hne.
  - destruct (String.eqb k0 k) eqn:E; simpl.
    + apply String.eqb_eq in E. subst k0.
      assert (String.eqb k k' = false) as ->; [|reflexivity].
      apply String.eqb_neq. congruence.
    + now rewrite IH.
Qed.

Lemma dict_mem_In k d : Dict.mem k d = true <-> In k (Dict.keys d).
Proof.
  unfold Dict.mem. induction d as [|[k' v'] d IH]; simpl.
  - split; [discriminate | tauto].
  - destruct (String.eqb k' k) eqn:E.
    + apply String.eqb_eq in E. split; auto.
    + apply String.eqb_neq in E. rewrite IH. split; [auto | tauto].
Qed.

Lemma dict_keys_set_present k v d :
  In k (Dict.keys d) -> Dict.keys (Dict.set k v d) = Dict.keys d.
Proof.
  induction d as [|[k' v'] d IH]; simpl; [tauto|].
  intros Hin. destruct (String.eqb k' k) eqn:E; simpl.
  - apply String.eqb_eq in E. now subst.
  - apply String.eqb_neq in E. f_equal. apply IH. tauto.
Qed.

Lemma dict_keys_set_absent k v d :
  ~ In k (Dict.keys d) -> Dict.keys (Dict.set k v d) = (Dict.keys d ++ [k])%list.
Proof.
  induction d as [|[k' v'] d IH]; simpl; [reflexivity|].
  intros Hnin. destruct (String.eqb k' k) eqn:E; simpl.
  - apply String.eqb_eq in E. tauto.
  - f_equal. apply IH. tauto.
Qed.

Lemma dict_keys_set_unique k v d :
  NoDup (Dict.keys d) -> NoDup (Dict.keys (Dict.set k v d)).
Proof.
  intros Hnd. destruct (in_dec string_dec k (Dict.keys d)) as [Hin|Hnin].
  - now rewrite dict_keys_set_present.
  - rewrite dict_keys_set_absent by assumption.
    apply NoDup_app; repeat split; auto.
    + constructor; [tauto | constructor].
    + intros x Hx [<-|[]]. tauto.
Qed.

Lemma dict_count_absent k d : ~ In k (Dict.keys d) -> Dict.count k d = 0%nat.
Proof.
  unfold Dict.count. induction d as [|[k' v'] d IH]; simpl; [reflexivity|].
  intros Hnin. destruct (String.eqb k' k) eqn:E.
  - apply String.eqb_eq in E. tauto.
  - apply IH. tauto.
Qed.

Lemma dict_count_set k v d :
  NoDup (Dict.keys d) -> Dict.count k (Dict.set k v d) = 1%nat.
Proof.
  unfold Dict.count. induction d as [|[k' v'] d IH]; simpl; intros Hnd.
  - now rewrite String.eqb_refl.
  - inversion Hnd as [|? ? Hnin Hnd']; subst.
    destruct (String.eqb k' k) eqn:E; simpl.
    + rewrite String.eqb_refl. simpl. f_equal.
      apply String.eqb_eq in E. subst k'.
      now apply dict_count_absent.
    + rewrite E. now apply IH.
Qed.

End DictFacts.

(** ** Traces *)

Lemma skipn_length_app {A} (l l' : list A) : skipn (length l) (l ++ l') = l'.
Proof. induction l; simpl; auto. Qed.

(** The calls a tool made, when its final trace extends the initial one. *)
Lemma new_events_extend {A} (m : Py A) (s : State) (evs : list event) :
  trace (snd (m s)) = (trace s ++ evs)%list -> new_events m s = evs.
Proof. unfold new_events. intros ->. apply skipn_length_app. Qed.

Lemma new_events_none {A} (m : Py A) (s : State) :
  snd (m s) = s -> new_events m s = [].
Proof.
  unfold new_events. intros ->. apply skipn_all.
Qed.

(** ** Running a tool *)

Ltac py_unfold :=
  unfold provision_sandbox, list_sandboxes, run_command, deploy_app,
    verify_url, check_latency, send_message, truediv, extremum,
    import_module, call_Sandbox_create, call_commands_run,
    call_requests_get, call_time_time, ask, print, time_sleep, emit,
    setitem_sandboxes, getitem_sandboxes, get_sandboxes, try_except,
    bind, ret, raise in *.

Ltac py_proj :=
  cbn [negb fst snd trace with_trace with_sandboxes _sandboxes
       _agent_client _source_id].

(** ** provision_sandbox *)

Lemma provision_not_installed h name s :
  installed h "e2b_code_interpreter" = false ->
  provision_sandbox h name s =
  (Raise (Exn "ModuleNotFoundError" "No module named 'e2b_code_interpreter'"), s).
Proof. intros Hi. py_unfold. now rewrite Hi. Qed.

Lemma provision_no_credential h name s :
  installed h "e2b_code_interpreter" = true ->
  has_credential h = false ->
  provision_sandbox h name s =
  (Return "❌ E2B_API_KEY not set. Please configure your API key.", s).
Proof.
  unfold has_credential. intros Hi Hc. py_unfold. now rewrite Hi, Hc.
Qed.

Lemma provision_create_raises h name s e :
  installed h "e2b_code_interpreter" = true ->
  has_credential h = true ->
  Sandbox_create h (create_history name s) 600 = inl e ->
  provision_sandbox h name s =
  (reported "❌ Failed to provision sandbox: " e,
   with_trace (created_at_history name s) s).
Proof.
  unfold has_credential, created_at_history, create_history, reported.
  intros Hi Hc Hr. py_unfold. rewrite Hi, Hc. py_proj. rewrite Hr.
  now destruct (is_exception e).
Qed.

Lemma provision_created h name s sb :
  installed h "e2b_code_interpreter" = true ->
  has_credential h = true ->
  Sandbox_create h (create_history name s) 600 = inr sb ->
  provision_sandbox h name s =
  (Return (provisioned_message name sb),
   MkState
     (Dict.set name (info_of sb (time_time h (created_at_history name s)))
               (_sandboxes s))
     (_agent_client s) (_source_id s)
     (created_at_history name s ++ [TimeTime])).
Proof.
  unfold has_credential, created_at_history, create_history.
  intros Hi Hc Hr. py_unfold. rewrite Hi, Hc. py_proj. now rewrite Hr.
Qed.

(** ** The registry frame *)

Create HintDb frame.

Lemma frame_ret {A} (a : A) : preserves_registry (ret a).
Proof. intro s. reflexivity. Qed.

Lemma frame_raise {A} (e : exn) : preserves_registry (@raise A e).
Proof. intro s. reflexivity. Qed.

Lemma frame_bind {A B} (m : Py A) (k : A -> Py B) :
  preserves_registry m -> (forall a, preserves_registry (k a)) ->
  preserves_registry (bind m k).
Proof.
  intros Hm Hk s. unfold bind. specialize (Hm s).
  destruct (m s) as [[a|e] s']; simpl in *.
  - now rewrite Hk.
  - assumption.
Qed.

Lemma frame_try {A} (body : Py A) (handler : exn -> Py A) :
  preserves_registry body -> (forall e, preserves_registry (handler e)) ->
  preserves_registry (try_except body handler).
Proof.
  intros Hm Hk s. unfold try_except. specialize (Hm s).
  destruct (body s) as [[a|e] s']; simpl in *.
  - assumption.
  - destruct (is_exception e); [now rewrite Hk | assumption].
Qed.

Lemma frame_emit (e : event) : preserves_registry (emit e).
Proof. intro s. reflexivity. Qed.

Lemma frame_ask {A} (e : event) (answer : list event -> exn + A) :
  preserves_registry (ask e answer).
Proof. intro s. unfold ask. now destruct (answer (trace s)). Qed.

Lemma frame_import (h : Host) (m : string) :
  preserves_registry (import_module h m).
Proof. intro s. unfold import_module. now destruct (installed h m). Qed.

Lemma frame_getitem (name : string) :
  preserves_registry (getitem_sandboxes name).
Proof.
  intro s. unfold getitem_sandboxes. now destruct (Dict.get name _).
Qed.

Lemma frame_get_sandboxes : preserves_registry get_sandboxes.
Proof. intro s. reflexivity. Qed.

#[local] Hint Resolve frame_ret frame_raise frame_emit frame_ask frame_import
  frame_getitem frame_get_sandboxes : frame.

Ltac frame_step :=
  lazymatch goal with
  | |- preserves_registry (bind _ _) => apply frame_bind; [| intro]
  | |- preserves_registry (try_except _ _) => apply frame_try; [| intro]
  | |- preserves_registry (if ?b then _ else _) => destruct b
  | |- preserves_registry (match ?x with _ => _ end) => destruct x
  | |- preserves_registry _ => solve [auto with frame]
  end.

Ltac frame_tac := cbv zeta; repeat frame_step.

Lemma frame_sample_loop h url n : forall times,
  preserves_registry (sample_loop h url n times).
Proof.
  induction n as [|n IH]; intro times; simpl.
  - apply frame_ret.
  - unfold call_time_time, call_requests_get. frame_tac.
Qed.

Lemma frame_list_sandboxes : preserves_registry list_sandboxes.
Proof. unfold list_sandboxes. frame_tac. Qed.

Lemma frame_run_command h sandbox_name command :
  preserves_registry (run_command h sandbox_name command).
Proof.
  unfold run_command, print, call_commands_run. frame_tac.
Qed.

Lemma frame_deploy_app h sandbox_name repo_url :
  preserves_registry (deploy_app h sandbox_name repo_url).
Proof.
  unfold deploy_app, print, time_sleep, call_commands_run. frame_tac.
Qed.

Lemma frame_verify_url h url : preserves_registry (verify_url h url).
Proof.
  unfold verify_url, print, call_time_time, call_requests_get. frame_tac.
Qed.

Lemma frame_check_latency h url samples :
  preserves_registry (check_latency h url samples).
Proof.
  unfold check_latency, truediv, extremum. frame_tac.
  apply frame_sample_loop.
Qed.

Lemma frame_send_message text : preserves_registry (send_message text).
Proof. apply frame_ret. Qed.

Lemma frame_invoke h (t : Tool) :
  is_provision t = false -> preserves_registry (invoke h t).
Proof.
  destruct t; simpl; intro Hp; try discriminate.
  - apply frame_list_sandboxes.
  - apply frame_run_command.
  - apply frame_deploy_app.
  - apply frame_verify_url.
  - apply frame_check_latency.
  - apply frame_send_message.
Qed.

(** Every run of [provision_sandbox] is the success path, which stores one
    record under [name], or leaves the registry as it was and does not
    return the success message. *)
Lemma provision_dichotomy h name s :
  (exists sb,
      installed h "e2b_code_interpreter" = true /\
      has_credential h = true /\
      Sandbox_create h (create_history name s) 600 = inr sb /\
      fst (provision_sandbox h name s) = Return (provisioned_message name sb) /\
      _sandboxes (snd (provision_sandbox h name s)) =
      Dict.set name (info_of sb (time_time h (created_at_history name s)))
               (_sandboxes s))
  \/ (_sandboxes (snd (provision_sandbox h name s)) = _sandboxes s /\
      forall sb,
        fst (provision_sandbox h name s) <> Return (provisioned_message name sb)).
Proof.
  destruct (installed h "e2b_code_interpreter") eqn:Hi.
  2:{ right. rewrite provision_not_installed by assumption.
      split; [reflexivity | discriminate]. }
  destruct (has_credential h) eqn:Hc.
  2:{ right. rewrite provision_no_credential by assumption.
      split; [reflexivity | intro sb; simpl; discriminate]. }
  destruct (Sandbox_create h (create_history name s) 600) as [e|sb] eqn:Hr.
  - right. rewrite (provision_create_raises _ _ _ _ Hi Hc Hr).
    split; [reflexivity|]. intro sb. unfold reported.
    destruct (is_exception e); simpl; discriminate.
  - left. exists sb. rewrite (provision_created _ _ _ _ Hi Hc Hr).
    repeat split; reflexivity.
Qed.

(** Records stored under other names are never touched. *)
Lemma provision_keeps_other_names h name other s :
  other <> name ->
  Dict.get other (_sandboxes (snd (provision_sandbox h name s))) =
  Dict.get other (_sandboxes s).
Proof.
  intro Hne.
  destruct (provision_dichotomy h name s)
    as [(sb & _ & _ & _ & _ & ->)|[-> _]]; [|reflexivity].
  now apply dict_get_set_other.
Qed.

Lemma invoke_keys_unique h (t : Tool) s :
  NoDup (Dict.keys (_sandboxes s)) ->
  NoDup (Dict.keys (_sandboxes (snd (invoke h t s)))).
Proof.
  intro Hnd. destruct (is_provision t) eqn:Hp.
  - destruct t; try discriminate. simpl.
    destruct (provision_dichotomy h name s) as [(sb & _ & _ & _ & _ & ->)|[-> _]].
    + now apply dict_keys_set_unique.
    + assumption.
  - now rewrite (frame_invoke h t Hp s).
Qed.

(** ** Claims about the registry *)

(** C2, amended.  Once the SDK import has succeeded, [provision_sandbox]
    has these failure paths.  With [E2B_API_KEY] unset it returns the
    credential-missing message and the whole state, trace included, is
    untouched: no remote call was made and the registry is as before.  With
    the credential present and [Sandbox.create] raising an instance [e] of
    [Exception], it returns the failure message ending in [str(e)] and the
    registry is as before; an [e] outside [Exception] passes through
    [except Exception] to the caller, the registry again as before.
    Whether the import succeeded or not, every run that does not return the
    success message leaves the registry unchanged. *)
Theorem provision_sandbox_failure_paths (h : Host) (name : string) (s : State) :
  (installed h "e2b_code_interpreter" = true ->
   environ h "E2B_API_KEY" = None ->
     provision_sandbox h name s =
       (Return "❌ E2B_API_KEY not set. Please configure your API key.", s)
     /\ filter is_remote (new_events (provision_sandbox h name) s) = [])
  /\ (forall e,
        installed h "e2b_code_interpreter" = true ->
        has_credential h = true ->
        Sandbox_create h (create_history name s) 600 = inl e ->
        is_exception e = true ->
        fst (provision_sandbox h name s) =
          Return ("❌ Failed to provision sandbox: " ++ exn_text e)
        /\ PyStr.contains (exn_text e)
             ("❌ Failed to provision sandbox: " ++ exn_text e)
        /\ _sandboxes (snd (provision_sandbox h name s)) = _sandboxes s)
  /\ (forall e,
        installed h "e2b_code_interpreter" = true ->
        has_credential h = true ->
        Sandbox_create h (create_history name s) 600 = inl e ->
        is_exception e = false ->
        fst (provision_sandbox h name s) = Raise e
        /\ _sandboxes (snd (provision_sandbox h name s)) = _sandboxes s)
  /\ ((exists sb,
          fst (provision_sandbox h name s) =
            Return (provisioned_message name sb))
      \/ _sandboxes (snd (provision_sandbox h name s)) = _sandboxes s).
Proof.
  split; [|split; [|split]].
  - intros Hi Hkey.
    assert (has_credential h = false) as Hc
      by (unfold has_credential; now rewrite Hkey).
    rewrite (provision_no_credential h name s Hi Hc). split; [reflexivity|].
    rewrite new_events_none; [reflexivity|].
    now rewrite (provision_no_credential h name s Hi Hc).
  - intros e Hi Hc Hr He.
    rewrite (provision_create_raises h name s e Hi Hc Hr).
    unfold reported. rewrite He. repeat split. apply contains_after.
  - intros e Hi Hc Hr He.
    rewrite (provision_create_raises h name s e Hi Hc Hr).
    unfold reported. rewrite He. split; reflexivity.
  - destruct (provision_dichotomy h name s)
      as [(sb & _ & _ & _ & Hret & _)|[Hsame _]]; [left; eauto | now right].
Qed.

Lemma provision_sandbox_failure_paths_witness :
  provision_sandbox Demo.no_key "api" Demo.one_sandbox =
    (Return "❌ E2B_API_KEY not set. Please configure your API key.",
     Demo.one_sandbox)
  /\ fst (provision_sandbox Demo.create_down "api" Demo.one_sandbox) =
       Return "❌ Failed to provision sandbox: 401: Unauthorized"
  /\ _sandboxes (snd (provision_sandbox Demo.create_down "api"
                        Demo.one_sandbox)) =
     [("web", info_of Demo.web 2%float)]
  /\ fst (provision_sandbox Stub.interrupted "web" Demo.one_sandbox) =
       Raise (BaseExn "KeyboardInterrupt" "stop")
  /\ _sandboxes (snd (provision_sandbox Stub.interrupted "web"
                        Demo.one_sandbox)) =
     [("web", info_of Demo.web 2%float)].
Proof.
  split.
  - exact (proj1 (proj1 (provision_sandbox_failure_paths
                           Demo.no_key "api" Demo.one_sandbox)
                    eq_refl eq_refl)).
  - pose proof (proj1 (proj2 (provision_sandbox_failure_paths
                                Demo.create_down "api" Demo.one_sandbox))
                  (Exn "SandboxException" "401: Unauthorized")
                  eq_refl eq_refl eq_refl eq_refl) as (Hret & _ & Hreg).
    pose proof (proj1 (proj2 (proj2 (provision_sandbox_failure_paths
                                       Stub.interrupted "web"
                                       Demo.one_sandbox)))
                  (BaseExn "KeyboardInterrupt" "stop")
                  eq_refl eq_refl eq_refl eq_refl) as (Hesc & Hreg').
    exact (conj Hret (conj Hreg (conj Hesc Hreg'))).
Defined.

(** C2 as stated fails twice.  The credential is read after the SDK import,
    so with the key unset and the package absent the call raises the import
    error instead of returning the credential message.  And the handler is
    [except Exception]: a [KeyboardInterrupt] raised by [Sandbox.create] is
    not turned into the failure message but reaches the caller. *)
Lemma provision_failure_can_raise :
  provision_sandbox Stub.no_key_no_sdk "web" initial =
    (Raise (Exn "ModuleNotFoundError"
              "No module named 'e2b_code_interpreter'"), initial)
  /\ fst (provision_sandbox Stub.interrupted "web" initial) =
       Raise (BaseExn "KeyboardInterrupt" "stop")
  /\ ~ (forall (h : Host) (name : string) (s : State),
          environ h "E2B_API_KEY" = None ->
          fst (provision_sandbox h name s) =
            Return "❌ E2B_API_KEY not set. Please configure your API key.")
  /\ ~ (forall (h : Host) (name : string) (s : State) (e : exn),
          installed h "e2b_code_interpreter" = true ->
          has_credential h = true ->
          Sandbox_create h (create_history name s) 600 = inl e ->
          fst (provision_sandbox h name s) =
            Return ("❌ Failed to provision sandbox: " ++ exn_text e)).
Proof.
  split; [reflexivity|]. split; [reflexivity|]. split.
  - intro Hall.
    pose proof (Hall Stub.no_key_no_sdk "web" initial eq_refl) as Habs.
    discriminate Habs.
  - intro Hall.
    pose proof (Hall Stub.interrupted "web" initial
                  (BaseExn "KeyboardInterrupt" "stop")
                  eq_refl eq_refl eq_refl) as Habs.
    discriminate Habs.
Qed.

(** C6.  From a registry whose keys are unique, as those of a [dict] are,
    two calls of [provision_sandbox] with one name, both creations
    succeeding, leave exactly one entry under that name; it holds the second
    call's handle, the identifier and base URL derived from it and the second
    call's creation time.  Every tool keeps the registry's keys unique. *)
Theorem provision_twice_last_write_wins
    (h : Host) (name : string) (s : State) (sb1 sb2 : Sandbox) :
  let s1 := snd (provision_sandbox h name s) in
  let s2 := snd (provision_sandbox h name s1) in
  installed h "e2b_code_interpreter" = true ->
  has_credential h = true ->
  NoDup (Dict.keys (_sandboxes s)) ->
  Sandbox_create h (create_history name s) 600 = inr sb1 ->
  Sandbox_create h (create_history name s1) 600 = inr sb2 ->
  Dict.count name (_sandboxes s2) = 1%nat
  /\ Dict.get name (_sandboxes s2) =
       Some (MkInfo sb2 (sandbox_id sb2)
               ("https://8000-" ++ sandbox_id sb2 ++ ".e2b.app")
               (time_time h (created_at_history name s1)))
  /\ (forall (h' : Host) (t : Tool) (s' : State),
        NoDup (Dict.keys (_sandboxes s')) ->
        NoDup (Dict.keys (_sandboxes (snd (invoke h' t s'))))).
Proof.
  intros s1 s2 Hi Hc Hnd H1 H2.
  assert (NoDup (Dict.keys (_sandboxes s1))) as Hnd1
    by exact (invoke_keys_unique h (ProvisionSandbox name) s Hnd).
  subst s2. rewrite (provision_created h name s1 sb2 Hi Hc H2). simpl.
  split; [|split].
  - now apply dict_count_set.
  - apply dict_get_set_same.
  - intros h' t s'. apply invoke_keys_unique.
Qed.

Lemma provision_twice_last_write_wins_witness :
  let s2 := snd (provision_sandbox Demo.healthy "web"
                   (snd (provision_sandbox Demo.healthy "web" initial))) in
  Dict.count "web" (_sandboxes s2) = 1%nat
  /\ Dict.get "web" (_sandboxes s2) =
       Some (MkInfo (MkSandbox "ib3k9" 4) "ib3k9"
               "https://8000-ib3k9.e2b.app" 5%float).
Proof.
  pose proof (provision_twice_last_write_wins Demo.healthy "web" initial
                (MkSandbox "ib3k9" 1) (MkSandbox "ib3k9" 4)
                eq_refl eq_refl (NoDup_nil string) eq_refl eq_refl)
    as (Hcount & Hget & _).
  exact (conj Hcount Hget).
Defined.

(** C10.  Only [provision_sandbox] writes the registry.  Every other tool,
    on every input and from every state, returning or raising, leaves the
    mapping as it was: the same names in the same order, each with the same
    handle, identifier, base URL and creation time. *)
Theorem only_provision_writes_registry (h : Host) (t : Tool) (s : State) :
  is_provision t = false ->
  _sandboxes (snd (invoke h t s)) = _sandboxes s
  /\ forall name,
       Dict.get name (_sandboxes (snd (invoke h t s))) =
       Dict.get name (_sandboxes s).
Proof.
  intro Hp. pose proof (frame_invoke h t Hp s) as Hsame.
  split; [assumption | intro name; now rewrite Hsame].
Qed.

Lemma only_provision_writes_registry_witness :
  let s1 := snd (provision_sandbox Demo.healthy "web" initial) in
  _sandboxes
    (snd (invoke Demo.healthy (DeployApp "web" "https://github.com/acme/site")
            s1)) =
  _sandboxes s1.
Proof.
  exact (proj1 (only_provision_writes_registry Demo.healthy
                  (DeployApp "web" "https://github.com/acme/site")
                  (snd (provision_sandbox Demo.healthy "web" initial))
                  eq_refl)).
Defined.

(** ** list_sandboxes *)

Lemma list_entry_text output item :
  list_entry output item = output ++ entry_text item.
Proof.
  destruct item as [name info]. unfold list_entry, entry_text. simpl fst.
  simpl snd. now rewrite !append_associative.
Qed.

Lemma fold_list_entry items : forall output,
  fold_left list_entry items output = output ++ flatten (map entry_text items).
Proof.
  induction items as [|item items IH]; intro output; simpl.
  - now rewrite append_nil_right.
  - now rewrite IH, list_entry_text, append_associative.
Qed.

Lemma provision_all_keys h names : forall s,
  NoDup (Dict.keys (_sandboxes s) ++ names) ->
  Forall2 provisioned names (fst (provision_all h names s)) ->
  Dict.keys (_sandboxes (snd (provision_all h names s))) =
  (Dict.keys (_sandboxes s) ++ names)%list.
Proof.
  induction names as [|name rest IH]; intros s Hnd Hall; simpl.
  - now rewrite app_nil_r.
  - simpl in Hall.
    destruct (provision_dichotomy h name s)
      as [(sb & _ & _ & _ & _ & Hreg)|[_ Hnot]];
      destruct (provision_sandbox h name s) as [r s1] eqn:Hrun;
      destruct (provision_all h rest s1) as [rs s2] eqn:Hrest;
      simpl in *; inversion Hall as [|? ? ? ? Hhead Htail]; subst.
    + assert (~ In name (Dict.keys (_sandboxes s))) as Hnin.
      { intro Hin. apply NoDup_remove_2 in Hnd. apply Hnd.
        apply in_or_app. now left. }
      pose proof (IH s1) as IH1. rewrite Hrest in IH1. simpl in IH1.
      rewrite Hreg, dict_keys_set_absent in IH1 by assumption.
      rewrite <- app_assoc in IH1. simpl in IH1. apply IH1; assumption.
    + destruct Hhead as [sb ->]. now destruct (Hnot sb).
Qed.

(** C9.  On an empty registry [list_sandboxes] returns the fixed message;
    otherwise it returns the header followed by one block per record, in
    registry order, each showing the name, the identifier and the URL.  The
    state is the same afterwards in both cases.  After successful
    provisions of distinct names from an empty registry, the registry's
    names are exactly those names in provisioning order, so these are the
    blocks listed. *)
Theorem list_sandboxes_enumerates
    (h : Host) (s : State) (names : list string) :
  (_sandboxes s = [] ->
     list_sandboxes s =
       (Return "📭 No active sandboxes. Use provision_sandbox() to create one.",
        s))
  /\ (_sandboxes s <> [] ->
        list_sandboxes s =
          (Return (listing_header
                   ++ flatten (map entry_text (_sandboxes s))), s))
  /\ (_sandboxes s = [] -> NoDup names ->
        Forall2 provisioned names (fst (provision_all h names s)) ->
        map fst (_sandboxes (snd (provision_all h names s))) = names).
Proof.
  split; [|split].
  - intro Hempty. unfold list_sandboxes, get_sandboxes, bind, ret.
    now rewrite Hempty.
  - intro Hne. unfold list_sandboxes, get_sandboxes, bind, ret.
    destruct (_sandboxes s) as [|item items] eqn:Hreg; [congruence|].
    now rewrite fold_list_entry.
  - intros Hempty Hnd Hall.
    pose proof (provision_all_keys h names s) as Hkeys.
    unfold Dict.keys in Hkeys. rewrite Hempty in Hkeys. simpl in Hkeys.
    now apply Hkeys.
Qed.

Lemma list_sandboxes_enumerates_witness :
  let s2 := snd (provision_all Demo.healthy ["web"; "api"] initial) in
  list_sandboxes initial =
    (Return "📭 No active sandboxes. Use provision_sandbox() to create one.",
     initial)
  /\ map fst (_sandboxes s2) = ["web"; "api"]
  /\ list_sandboxes s2 =
       (Return (listing_header
                ++ flatten (map entry_text (_sandboxes s2))), s2).
Proof.
  pose proof (list_sandboxes_enumerates Demo.healthy initial ["web"; "api"])
    as (Hempty & _ & Hnames).
  pose proof (list_sandboxes_enumerates Demo.healthy
                (snd (provision_all Demo.healthy ["web"; "api"] initial)) [])
    as (_ & Hlist & _).
  split; [exact (Hempty eq_refl)|]. split.
  - apply Hnames; [reflexivity | |].
    + repeat constructor; simpl; intuition discriminate.
    + repeat constructor; eexists; reflexivity.
  - apply Hlist. discriminate.
Defined.

(** ** run_command *)

Lemma dict_get_absent {V} (k : string) (d : Dict.t V) :
  ~ In k (Dict.keys d) -> Dict.get k d = None.
Proof.
  intro Hnin. destruct (Dict.get k d) as [v|] eqn:Hget; [|reflexivity].
  exfalso. apply Hnin. apply dict_mem_In. unfold Dict.mem. now rewrite Hget.
Qed.

Lemma run_command_unknown h sandbox_name command s :
  ~ In sandbox_name (Dict.keys (_sandboxes s)) ->
  run_command h sandbox_name command s =
  (Return ("❌ Sandbox '" ++ sandbox_name ++ "' not found."), s).
Proof.
  intro Hnin. py_unfold. unfold Dict.mem.
  now rewrite (dict_get_absent _ _ Hnin).
Qed.

Lemma run_command_known h sandbox_name command s info r :
  Dict.get sandbox_name (_sandboxes s) = Some info ->
  commands_run h (run_history command s) (info_sandbox info) command None
    = inr r ->
  run_command h sandbox_name command s =
  (Return
     ((if exit_code r =? 0 then "✅" else "⚠️") ++ " "
      ++ ((if PyStr.truthy (stdout r)
           then EmptyString ++ "📤 stdout:" ++ PyStr.nl ++ stdout r ++ PyStr.nl
           else EmptyString)
          ++ (if PyStr.truthy (stderr r)
              then "📤 stderr:" ++ PyStr.nl ++ stderr r ++ PyStr.nl
              else EmptyString)
          ++ "🔢 Exit code: " ++ PyStr.of_int (exit_code r))),
   with_trace (run_history command s
               ++ [CommandsRun (info_sandbox info) command None]) s).
Proof.
  unfold run_history. intros Hget Hrun. py_unfold. unfold Dict.mem.
  repeat (rewrite Hget; py_proj). rewrite Hrun.
  destruct (PyStr.truthy (stdout r)), (PyStr.truthy (stderr r));
    cbv beta iota zeta; rewrite ?append_associative; reflexivity.
Qed.

Lemma run_command_raises h sandbox_name command s info e :
  Dict.get sandbox_name (_sandboxes s) = Some info ->
  commands_run h (run_history command s) (info_sandbox info) command None
    = inl e ->
  run_command h sandbox_name command s =
  (reported "❌ Command failed: " e,
   with_trace (run_history command s
               ++ [CommandsRun (info_sandbox info) command None]) s).
Proof.
  unfold run_history, reported. intros Hget Hrun. py_unfold. unfold Dict.mem.
  repeat (rewrite Hget; py_proj). rewrite Hrun.
  now destruct (is_exception e).
Qed.

Lemma new_events_of_run {A} (m : Py A) (s : State) r tr evs :
  m s = (r, with_trace tr s) -> tr = (trace s ++ evs)%list ->
  new_events m s = evs.
Proof.
  intros Hrun ->. apply new_events_extend. now rewrite Hrun.
Qed.

(** C7.  On a name that is not a key of the registry [run_command] returns
    the not-found message and touches nothing, so no remote call is made.
    On a known name whose command returns [r], the report is the marker, a
    stdout section, a stderr section and the exit-code line: a section is
    present exactly when its stream is non-empty and then carries the
    stream's text, the exit code is always printed, and the marker is the
    success mark exactly when the exit code is 0 and the warning mark
    otherwise. *)
Theorem run_command_report
    (h : Host) (sandbox_name command : string) (s : State) :
  (~ In sandbox_name (Dict.keys (_sandboxes s)) ->
     run_command h sandbox_name command s =
       (Return ("❌ Sandbox '" ++ sandbox_name ++ "' not found."), s)
     /\ filter is_remote (new_events (run_command h sandbox_name command) s)
        = [])
  /\ (forall info r,
        Dict.get sandbox_name (_sandboxes s) = Some info ->
        commands_run h (run_history command s) (info_sandbox info)
          command None = inr r ->
        exists marker out err,
          fst (run_command h sandbox_name command s) =
            Return (marker ++ " " ++ out ++ err
                    ++ "🔢 Exit code: " ++ PyStr.of_int (exit_code r))
          /\ (stdout r = EmptyString <-> out = EmptyString)
          /\ (stdout r <> EmptyString ->
              out = "📤 stdout:" ++ PyStr.nl ++ stdout r ++ PyStr.nl)
          /\ (stderr r = EmptyString <-> err = EmptyString)
          /\ (stderr r <> EmptyString ->
              err = "📤 stderr:" ++ PyStr.nl ++ stderr r ++ PyStr.nl)
          /\ (exit_code r = 0 <-> marker = "✅")
          /\ (exit_code r <> 0 <-> marker = "⚠️")).
Proof.
  split.
  - intro Hnin. rewrite (run_command_unknown h _ command s Hnin).
    split; [reflexivity|].
    rewrite new_events_none; [reflexivity|].
    now rewrite (run_command_unknown h _ command s Hnin).
  - intros info r Hget Hrun.
    rewrite (run_command_known h _ _ s info r Hget Hrun). simpl fst.
    eexists _, _, _. split; [reflexivity|].
    repeat split.
    + now intros ->.
    + destruct (stdout r); [reflexivity | discriminate].
    + destruct (stdout r); [congruence | reflexivity].
    + now intros ->.
    + destruct (stderr r); [reflexivity | discriminate].
    + destruct (stderr r); [congruence | reflexivity].
    + intros ->. reflexivity.
    + destruct (Z.eqb_spec (exit_code r) 0); [trivial | discriminate].
    + intro Hne. apply Z.eqb_neq in Hne. now rewrite Hne.
    + destruct (Z.eqb_spec (exit_code r) 0); [discriminate | trivial].
Qed.

Lemma run_command_report_witness :
  let s1 := snd (provision_sandbox Demo.healthy "web" initial) in
  run_command Demo.healthy "api" "ls" s1 =
    (Return "❌ Sandbox 'api' not found.", s1)
  /\ exists marker out err,
       fst (run_command Demo.healthy "web" "ls" s1) =
         Return (marker ++ " " ++ out ++ err ++ "🔢 Exit code: " ++ "0")
       /\ out = "📤 stdout:" ++ PyStr.nl ++ "done" ++ PyStr.nl
       /\ err = EmptyString
       /\ marker = "✅".
Proof.
  intro s1.
  pose proof (run_command_report Demo.healthy "web" "ls" s1) as [_ Hknown].
  pose proof (run_command_report Demo.healthy "api" "ls" s1) as [Hunknown _].
  split.
  - apply Hunknown. simpl. intuition discriminate.
  - destruct (Hknown (info_of (MkSandbox "ib3k9" 1) 2%float)
                (MkResult "done" EmptyString 0) eq_refl eq_refl)
      as (marker & out & err & Hret & _ & Hout & Herr & _ & Hmark & _).
    exists marker, out, err. repeat split.
    + exact Hret.
    + apply Hout. discriminate.
    + now apply Herr.
    + now apply Hmark.
Defined.

(** ** deploy_app *)

Ltac deploy_open Hget :=
  unfold probe_history, serve_history, build_history, install_history,
    clone_history in *;
  py_unfold; unfold Dict.mem; repeat (rewrite Hget; py_proj).

Ltac answer H := rewrite H; py_proj.

Ltac exit_is_zero H := rewrite H; cbn [Z.eqb negb]; py_proj.

Ltac exit_not_zero H :=
  let E := fresh in
  pose proof (proj2 (Z.eqb_neq _ _) H) as E; rewrite E; cbn [negb].

Section DeployPaths.
Variables (h : Host) (sandbox_name repo_url : string) (s : State).
Variable info : Info.
Hypothesis Hget : Dict.get sandbox_name (_sandboxes s) = Some info.
Let sb := info_sandbox info.

Lemma deploy_clone_fails r1 :
  commands_run h (clone_history s) sb (clone_command repo_url) None = inr r1 ->
  exit_code r1 <> 0 ->
  deploy_app h sandbox_name repo_url s =
  (Return ("❌ Clone failed: " ++ stderr r1),
   with_trace (clone_history s
               ++ [CommandsRun sb (clone_command repo_url) None]) s).
Proof.
  subst sb. intros H1 E1. deploy_open Hget.
  answer H1. exit_not_zero E1. reflexivity.
Qed.

Lemma deploy_install_fails r1 r2 :
  commands_run h (clone_history s) sb (clone_command repo_url) None = inr r1 ->
  exit_code r1 = 0 ->
  commands_run h (install_history sb repo_url s) sb install_command (Some 120)
    = inr r2 ->
  exit_code r2 <> 0 ->
  deploy_app h sandbox_name repo_url s =
  (Return ("❌ Install failed: " ++ stderr r2),
   with_trace (install_history sb repo_url s
               ++ [CommandsRun sb install_command (Some 120)]) s).
Proof.
  subst sb. intros H1 E1 H2 E2. deploy_open Hget.
  answer H1. exit_is_zero E1. answer H2. exit_not_zero E2. reflexivity.
Qed.

Lemma deploy_build_fails r1 r2 r3 :
  commands_run h (clone_history s) sb (clone_command repo_url) None = inr r1 ->
  exit_code r1 = 0 ->
  commands_run h (install_history sb repo_url s) sb install_command (Some 120)
    = inr r2 ->
  exit_code r2 = 0 ->
  commands_run h (build_history sb repo_url s) sb build_command (Some 120)
    = inr r3 ->
  exit_code r3 <> 0 ->
  deploy_app h sandbox_name repo_url s =
  (Return ("❌ Build failed: " ++ stderr r3),
   with_trace (build_history sb repo_url s
               ++ [CommandsRun sb build_command (Some 120)]) s).
Proof.
  subst sb. intros H1 E1 H2 E2 H3 E3. deploy_open Hget.
  answer H1. exit_is_zero E1. answer H2. exit_is_zero E2.
  answer H3. exit_not_zero E3. reflexivity.
Qed.

Lemma deploy_probed r1 r2 r3 r4 r5 :
  commands_run h (clone_history s) sb (clone_command repo_url) None = inr r1 ->
  exit_code r1 = 0 ->
  commands_run h (install_history sb repo_url s) sb install_command (Some 120)
    = inr r2 ->
  exit_code r2 = 0 ->
  commands_run h (build_history sb repo_url s) sb build_command (Some 120)
    = inr r3 ->
  exit_code r3 = 0 ->
  commands_run h (serve_history sb repo_url s) sb serve_command None
    = inr r4 ->
  commands_run h (probe_history sb repo_url s) sb probe_command None
    = inr r5 ->
  deploy_app h sandbox_name repo_url s =
  (Return (if exit_code r5 =? 0
           then deployed_message (info_base_url info)
           else "❌ Server failed to start"),
   with_trace (probe_history sb repo_url s
               ++ [CommandsRun sb probe_command None]) s).
Proof.
  subst sb. intros H1 E1 H2 E2 H3 E3 H4 H5. deploy_open Hget.
  answer H1. exit_is_zero E1. answer H2. exit_is_zero E2.
  answer H3. exit_is_zero E3. answer H4. answer H5.
  destruct (exit_code r5 =? 0); reflexivity.
Qed.

End DeployPaths.

Ltac split_answer :=
  match goal with
  | |- context [commands_run ?h ?tr ?sb ?c ?t] =>
      let e := fresh "e" in
      let r := fresh "r" in
      let H := fresh "Hanswer" in
      destruct (commands_run h tr sb c t) as [e|r] eqn:H; py_proj
  end.

Ltac split_exit :=
  match goal with
  | |- context [exit_code ?r =? 0] =>
      let E := fresh "Hexit" in
      destruct (Z.eqb_spec (exit_code r) 0) as [E|E]; cbn [negb]; py_proj
  end.

Ltac other_message :=
  let H := fresh in
  try match goal with
      | |- context [is_exception ?e] => destruct (is_exception e)
      end;
  intro H; cbn [fst] in H; unfold deployed_message in H; simpl in H;
  discriminate H.

Lemma deploy_success_inv h sandbox_name repo_url s info :
  Dict.get sandbox_name (_sandboxes s) = Some info ->
  fst (deploy_app h sandbox_name repo_url s) =
    Return (deployed_message (info_base_url info)) ->
  exits_zero (commands_run h (clone_history s) (info_sandbox info)
                (clone_command repo_url) None)
  /\ exits_zero (commands_run h
                   (install_history (info_sandbox info) repo_url s)
                   (info_sandbox info) install_command (Some 120))
  /\ exits_zero (commands_run h
                   (build_history (info_sandbox info) repo_url s)
                   (info_sandbox info) build_command (Some 120))
  /\ (exists r4,
         commands_run h (serve_history (info_sandbox info) repo_url s)
           (info_sandbox info) serve_command None = inr r4)
  /\ exits_zero (commands_run h
                   (probe_history (info_sandbox info) repo_url s)
                   (info_sandbox info) probe_command None).
Proof.
  intro Hget. unfold exits_zero. deploy_open Hget.
  split_answer; [other_message|]. split_exit; [|other_message].
  split_answer; [other_message|]. split_exit; [|other_message].
  split_answer; [other_message|]. split_exit; [|other_message].
  split_answer; [other_message|].
  split_answer; [other_message|]. split_exit; [|other_message].
  intros _. repeat split; eauto.
Qed.

Lemma commands_of_run {A} (m : Py A) (s : State) r tr evs :
  m s = (r, with_trace tr s) -> tr = (trace s ++ evs)%list ->
  commands_of (new_events m s) = commands_of evs.
Proof. intros Hrun Htr. now rewrite (new_events_of_run m s r tr evs). Qed.

Ltac trace_shape :=
  unfold probe_history, serve_history, build_history, install_history,
    clone_history;
  repeat rewrite <- app_assoc; reflexivity.

(** C3.  On a registered sandbox [deploy_app] runs clone, install and build
    in this order, and the first of them to return a non-zero exit code ends
    the call: the result is that step's failure message followed by the
    step's standard error, and the commands sent are those up to the failed
    step and no later one.  After a failed clone only the clone command was
    sent.  When all three succeed the launch and the probe follow, in this
    order. *)
Theorem deploy_app_short_circuits
    (h : Host) (sandbox_name repo_url : string) (s : State) (info : Info) :
  Dict.get sandbox_name (_sandboxes s) = Some info ->
  let sb := info_sandbox info in
  let deploy := deploy_app h sandbox_name repo_url in
  let clone :=
    commands_run h (clone_history s) sb (clone_command repo_url) None in
  let install :=
    commands_run h (install_history sb repo_url s) sb install_command
      (Some 120) in
  let build :=
    commands_run h (build_history sb repo_url s) sb build_command
      (Some 120) in
  let serve :=
    commands_run h (serve_history sb repo_url s) sb serve_command None in
  let probe :=
    commands_run h (probe_history sb repo_url s) sb probe_command None in
  (forall r1,
      clone = inr r1 -> exit_code r1 <> 0 ->
      fst (deploy s) = Return ("❌ Clone failed: " ++ stderr r1)
      /\ commands_of (new_events deploy s) = [clone_command repo_url])
  /\ (forall r2,
        exits_zero clone -> install = inr r2 -> exit_code r2 <> 0 ->
        fst (deploy s) = Return ("❌ Install failed: " ++ stderr r2)
        /\ commands_of (new_events deploy s) =
           [clone_command repo_url; install_command])
  /\ (forall r3,
        exits_zero clone -> exits_zero install ->
        build = inr r3 -> exit_code r3 <> 0 ->
        fst (deploy s) = Return ("❌ Build failed: " ++ stderr r3)
        /\ commands_of (new_events deploy s) =
           [clone_command repo_url; install_command; build_command])
  /\ (forall r4 r5,
        exits_zero clone -> exits_zero install -> exits_zero build ->
        serve = inr r4 -> probe = inr r5 ->
        commands_of (new_events deploy s) =
        [clone_command repo_url; install_command; build_command;
         serve_command; probe_command]).
Proof.
  intros Hget sb deploy clone install build serve probe.
  subst deploy clone install build serve probe.
  split; [|split; [|split]].
  - intros r1 H1 E1.
    pose proof (deploy_clone_fails h _ repo_url s info Hget r1 H1 E1) as Hrun.
    split; [now rewrite Hrun|].
    rewrite (commands_of_run _ _ _ _
               [Print "1️⃣ Cloning repository...";
                CommandsRun sb (clone_command repo_url) None] Hrun);
      [reflexivity | trace_shape].
  - intros r2 (r1 & H1 & E1) H2 E2.
    pose proof (deploy_install_fails h _ repo_url s info Hget r1 r2
                  H1 E1 H2 E2) as Hrun.
    split; [now rewrite Hrun|].
    rewrite (commands_of_run _ _ _ _
               [Print "1️⃣ Cloning repository...";
                CommandsRun sb (clone_command repo_url) None;
                Print "2️⃣ Installing dependencies...";
                CommandsRun sb install_command (Some 120)] Hrun);
      [reflexivity | trace_shape].
  - intros r3 (r1 & H1 & E1) (r2 & H2 & E2) H3 E3.
    pose proof (deploy_build_fails h _ repo_url s info Hget r1 r2 r3
                  H1 E1 H2 E2 H3 E3) as Hrun.
    split; [now rewrite Hrun|].
    rewrite (commands_of_run _ _ _ _
               [Print "1️⃣ Cloning repository...";
                CommandsRun sb (clone_command repo_url) None;
                Print "2️⃣ Installing dependencies...";
                CommandsRun sb install_command (Some 120);
                Print "3️⃣ Building...";
                CommandsRun sb build_command (Some 120)] Hrun);
      [reflexivity | trace_shape].
  - intros r4 r5 (r1 & H1 & E1) (r2 & H2 & E2) (r3 & H3 & E3) H4 H5.
    pose proof (deploy_probed h _ repo_url s info Hget r1 r2 r3 r4 r5
                  H1 E1 H2 E2 H3 E3 H4 H5) as Hrun.
    rewrite (commands_of_run _ _ _ _
               [Print "1️⃣ Cloning repository...";
                CommandsRun sb (clone_command repo_url) None;
                Print "2️⃣ Installing dependencies...";
                CommandsRun sb install_command (Some 120);
                Print "3️⃣ Building...";
                CommandsRun sb build_command (Some 120);
                Print "4️⃣ Starting server...";
                CommandsRun sb serve_command None;
                TimeSleep 3;
                CommandsRun sb probe_command None] Hrun);
      [reflexivity | trace_shape].
Qed.

Lemma deploy_app_short_circuits_witness :
  (fst (deploy_app Demo.clone_denied "web" Demo.repo Demo.one_sandbox) =
     Return "❌ Clone failed: fatal: repository not found"
   /\ commands_of (new_events (deploy_app Demo.clone_denied "web" Demo.repo)
                     Demo.one_sandbox) =
      ["git clone https://github.com/acme/site /home/user/app"])
  /\ (fst (deploy_app Demo.install_broken "web" Demo.repo Demo.one_sandbox) =
        Return "❌ Install failed: npm ERR! code E404"
      /\ commands_of (new_events (deploy_app Demo.install_broken "web" Demo.repo)
                        Demo.one_sandbox) =
         ["git clone https://github.com/acme/site /home/user/app";
          "cd /home/user/app && npm install"])
  /\ (fst (deploy_app Demo.build_broken "web" Demo.repo Demo.one_sandbox) =
        Return "❌ Build failed: vite: not found").
Proof.
  assert (forall (a : exn + CommandResult) r,
             a = inr r -> exit_code r = 0 -> exits_zero a) as Hzero
    by (intros a r Ha Hr; exists r; now split).
  split; [|split].
  - exact (proj1 (deploy_app_short_circuits Demo.clone_denied "web" Demo.repo
                    Demo.one_sandbox (info_of Demo.web 2%float) eq_refl)
             (MkResult EmptyString "fatal: repository not found" 128)
             eq_refl ltac:(discriminate)).
  - exact (proj1 (proj2 (deploy_app_short_circuits Demo.install_broken "web"
                           Demo.repo Demo.one_sandbox
                           (info_of Demo.web 2%float) eq_refl))
             (MkResult EmptyString "npm ERR! code E404" 1)
             (Hzero _ (MkResult "done" EmptyString 0) eq_refl eq_refl)
             eq_refl ltac:(discriminate)).
  - exact (proj1 (proj1 (proj2 (proj2 (deploy_app_short_circuits
                                         Demo.build_broken
                                         "web" Demo.repo Demo.one_sandbox
                                         (info_of Demo.web 2%float) eq_refl)))
                    (MkResult EmptyString "vite: not found" 127)
                    (Hzero _ (MkResult "done" EmptyString 0) eq_refl eq_refl)
                    (Hzero _ (MkResult "done" EmptyString 0) eq_refl eq_refl)
                    eq_refl ltac:(discriminate))).
Defined.

(** C4.  On a registered sandbox [deploy_app] returns the success message,
    which ends in the sandbox's base URL, exactly when clone, install and
    build each returned exit code 0, the launch command returned at all and
    the process probe returned exit code 0.  Nothing is asked of the exit
    code of the launch command.  When the first three steps succeeded and
    the probe's exit code is not 0, the result is the fixed message that
    the server failed to start, whatever the probe printed. *)
Theorem deploy_app_success_iff
    (h : Host) (sandbox_name repo_url : string) (s : State) (info : Info) :
  Dict.get sandbox_name (_sandboxes s) = Some info ->
  let sb := info_sandbox info in
  let clone :=
    commands_run h (clone_history s) sb (clone_command repo_url) None in
  let install :=
    commands_run h (install_history sb repo_url s) sb install_command
      (Some 120) in
  let build :=
    commands_run h (build_history sb repo_url s) sb build_command
      (Some 120) in
  let serve :=
    commands_run h (serve_history sb repo_url s) sb serve_command None in
  let probe :=
    commands_run h (probe_history sb repo_url s) sb probe_command None in
  (fst (deploy_app h sandbox_name repo_url s) =
     Return (deployed_message (info_base_url info))
   <-> exits_zero clone /\ exits_zero install /\ exits_zero build
       /\ (exists r4, serve = inr r4) /\ exits_zero probe)
  /\ PyStr.contains (info_base_url info)
       (deployed_message (info_base_url info))
  /\ (forall r4 r5,
        exits_zero clone -> exits_zero install -> exits_zero build ->
        serve = inr r4 -> probe = inr r5 -> exit_code r5 <> 0 ->
        fst (deploy_app h sandbox_name repo_url s) =
          Return "❌ Server failed to start").
Proof.
  intros Hget sb clone install build serve probe.
  subst clone install build serve probe. split; [split|split].
  - now apply deploy_success_inv.
  - intros ((r1 & H1 & E1) & (r2 & H2 & E2) & (r3 & H3 & E3)
            & (r4 & H4) & (r5 & H5 & E5)).
    rewrite (deploy_probed h _ repo_url s info Hget r1 r2 r3 r4 r5
               H1 E1 H2 E2 H3 E3 H4 H5).
    simpl fst. now rewrite E5.
  - unfold deployed_message. rewrite <- !append_associative.
    apply contains_after.
  - intros r4 r5 (r1 & H1 & E1) (r2 & H2 & E2) (r3 & H3 & E3) H4 H5 E5.
    rewrite (deploy_probed h _ repo_url s info Hget r1 r2 r3 r4 r5
               H1 E1 H2 E2 H3 E3 H4 H5).
    simpl fst. apply Z.eqb_neq in E5. now rewrite E5.
Qed.

Lemma deploy_app_success_iff_witness :
  fst (deploy_app Demo.launch_nonzero "web" Demo.repo Demo.one_sandbox) =
    Return (deployed_message "https://8000-ib3k9.e2b.app")
  /\ fst (deploy_app Demo.probe_empty "web" Demo.repo Demo.one_sandbox) =
       Return "❌ Server failed to start".
Proof.
  assert (forall (a : exn + CommandResult) r,
             a = inr r -> exit_code r = 0 -> exits_zero a) as Hzero
    by (intros a r Ha Hr; exists r; now split).
  pose (ok := MkResult "done" EmptyString 0).
  pose (quiet := MkResult EmptyString EmptyString 1).
  split.
  - apply (proj1 (deploy_app_success_iff Demo.launch_nonzero "web" Demo.repo
                    Demo.one_sandbox (info_of Demo.web 2%float) eq_refl)).
    repeat split; try (apply (Hzero _ ok); reflexivity).
    now exists quiet.
  - apply (proj2 (proj2 (deploy_app_success_iff Demo.probe_empty "web"
                           Demo.repo Demo.one_sandbox
                           (info_of Demo.web 2%float) eq_refl))
             ok quiet);
      try (apply (Hzero _ ok); reflexivity);
      try reflexivity.
    discriminate.
Defined.

(** ** verify_url *)

Lemma verify_url_answered h url s resp :
  installed h "requests" = true ->
  requests_get h (verify_get_history url s) url 10 (Some true) = inr resp ->
  fst (verify_url h url s) =
  Return (if status_code resp =? 200 then live_message h url s
          else warning_message h url s (status_code resp)).
Proof.
  unfold live_message, warning_message, verify_latency, verify_stop_history,
    verify_get_history, verify_start_history.
  intros Hi Hget. py_unfold. rewrite Hi. py_proj. rewrite Hget. py_proj.
  destruct (Z.eqb_spec (status_code resp) 200) as [E|E]; [|reflexivity].
  rewrite E. reflexivity.
Qed.

Lemma verify_url_raises h url s e :
  installed h "requests" = true ->
  requests_get h (verify_get_history url s) url 10 (Some true) = inl e ->
  fst (verify_url h url s) = reported "❌ Failed: " e.
Proof.
  unfold verify_get_history, verify_start_history, reported.
  intros Hi Hget. py_unfold. rewrite Hi. py_proj. rewrite Hget.
  now destruct (is_exception e).
Qed.

(** C8, amended.  Once [requests] is imported, [verify_url] returns the
    live message exactly when the GET answered with status 200, and for any
    other status the warning message that prints that status; both end in
    the measured latency in milliseconds.  An instance of [Exception]
    raised by the GET becomes the failure message followed by its text.  An
    exception outside [Exception] raised by the GET passes through
    [except Exception], and this is the only way the request part raises
    to the caller. *)
Theorem verify_url_outcomes (h : Host) (url : string) (s : State) :
  installed h "requests" = true ->
  let answer :=
    requests_get h (verify_get_history url s) url 10 (Some true) in
  (forall resp,
      answer = inr resp ->
      (status_code resp = 200 <->
       fst (verify_url h url s) = Return (live_message h url s))
      /\ (status_code resp <> 200 ->
          fst (verify_url h url s) =
            Return (warning_message h url s (status_code resp))
          /\ PyStr.contains (PyStr.of_int (status_code resp))
               (warning_message h url s (status_code resp))))
  /\ (forall status,
        PyStr.contains (verify_latency h url s) (live_message h url s)
        /\ PyStr.contains (verify_latency h url s)
             (warning_message h url s status))
  /\ (forall e,
        answer = inl e -> is_exception e = true ->
        fst (verify_url h url s) = Return ("❌ Failed: " ++ exn_text e)
        /\ PyStr.contains (exn_text e) ("❌ Failed: " ++ exn_text e))
  /\ (forall e,
        answer = inl e -> is_exception e = false ->
        fst (verify_url h url s) = Raise e)
  /\ (forall e,
        fst (verify_url h url s) = Raise e ->
        answer = inl e /\ is_exception e = false).
Proof.
  intros Hi answer. subst answer. split; [|split; [|split; [|split]]].
  - intros resp Hget.
    rewrite (verify_url_answered h url s resp Hi Hget). split; [split|].
    + intro E. apply Z.eqb_eq in E. now rewrite E.
    + destruct (Z.eqb_spec (status_code resp) 200) as [E|E]; [trivial|].
      unfold live_message, warning_message. simpl. discriminate.
    + intro Hne. apply Z.eqb_neq in Hne. rewrite Hne. split; [reflexivity|].
      unfold warning_message. apply contains_between.
  - intro status. split.
    + unfold live_message. rewrite <- !append_associative.
      apply contains_after.
    + unfold warning_message. rewrite <- !append_associative.
      apply contains_after.
  - intros e Hget He. rewrite (verify_url_raises h url s e Hi Hget).
    unfold reported. rewrite He. split; [reflexivity | apply contains_after].
  - intros e Hget He. rewrite (verify_url_raises h url s e Hi Hget).
    unfold reported. now rewrite He.
  - intros e Hraise.
    destruct (requests_get h (verify_get_history url s) url 10 (Some true))
      as [e'|resp] eqn:Hget.
    + rewrite (verify_url_raises h url s e' Hi Hget) in Hraise.
      unfold reported in Hraise.
      destruct (is_exception e') eqn:He'; [discriminate Hraise|].
      injection Hraise as <-. now split.
    + rewrite (verify_url_answered h url s resp Hi Hget) in Hraise.
      discriminate Hraise.
Qed.

Lemma verify_url_outcomes_witness :
  fst (verify_url Demo.healthy "https://example.com" initial) =
    Return (live_message Demo.healthy "https://example.com" initial)
  /\ PyStr.contains "1ms"
       (live_message Demo.healthy "https://example.com" initial)
  /\ fst (verify_url Stub.unreachable "https://example.com" initial) =
       Return "❌ Failed: connection refused".
Proof.
  pose proof (verify_url_outcomes Demo.healthy "https://example.com" initial
                eq_refl) as (Hanswered & Hlatency & _).
  pose proof (verify_url_outcomes Stub.unreachable "https://example.com"
                initial eq_refl) as (_ & _ & Hcaught & _).
  split; [|split].
  - now apply (proj1 (Hanswered (MkResponse 200) eq_refl)).
  - exact (proj1 (Hlatency 200)).
  - exact (proj1 (Hcaught (Exn "ConnectionError" "connection refused")
                    eq_refl eq_refl)).
Defined.

(** C8 as stated fails: the handler of [verify_url] is [except Exception],
    so a [KeyboardInterrupt] raised while the GET is in flight is not
    reported as a failure message but reaches the caller. *)
Lemma interrupt_escapes_verify_url :
  fst (verify_url Stub.interrupted "https://example.com" initial) =
    Raise (BaseExn "KeyboardInterrupt" "stop")
  /\ ~ (forall (h : Host) (url : string) (s : State) (e : exn),
          installed h "requests" = true ->
          requests_get h (verify_get_history url s) url 10 (Some true)
            = inl e ->
          fst (verify_url h url s) = Return ("❌ Failed: " ++ exn_text e)).
Proof.
  split; [reflexivity|].
  intro Hall.
  pose proof (Hall Stub.interrupted "https://example.com" initial
                (BaseExn "KeyboardInterrupt" "stop") eq_refl eq_refl)
    as Habs.
  discriminate Habs.
Qed.

(** ** check_latency *)

(** C5.  With [samples] zero or negative the loop body never runs, so
    [times] stays empty and [sum(times) / len(times)] divides 0 by 0.  The
    handler turns the [ZeroDivisionError] into the generic failure message:
    no exception reaches the caller and no request is sent, but the division
    is attempted and no check of [samples] is made. *)
Theorem check_latency_no_samples
    (h : Host) (url : string) (samples : Z) (s : State) :
  installed h "requests" = true ->
  samples <= 0 ->
  check_latency h url samples s = (Return "❌ Failed: division by zero", s)
  /\ sample_loop h url (Z.to_nat samples) [] s = (Return [], s)
  /\ truediv (float_sum h []) (length (@nil float)) s =
       (Raise (Exn "ZeroDivisionError" "division by zero"), s).
Proof.
  intros Hi Hle. unfold check_latency, import_module, bind, try_except.
  rewrite Hi. replace (Z.to_nat samples) with O by lia.
  repeat split.
Qed.

Lemma check_latency_no_samples_witness :
  check_latency Demo.healthy "https://example.com" 0 initial =
    (Return "❌ Failed: division by zero", initial)
  /\ check_latency Demo.healthy "https://example.com" (-2) initial =
       (Return "❌ Failed: division by zero", initial).
Proof.
  split.
  - exact (proj1 (check_latency_no_samples Demo.healthy "https://example.com"
                    0 initial eq_refl ltac:(lia))).
  - exact (proj1 (check_latency_no_samples Demo.healthy "https://example.com"
                    (-2) initial eq_refl ltac:(lia))).
Defined.

(** ** Messaging context *)

(** [send_message] reads neither global and changes nothing;
    [set_agent_context] overwrites both globals and nothing else. *)
Lemma send_message_ignores_context text s :
  send_message text s = (Return ("Message sent: " ++ text), s).
Proof. reflexivity. Qed.

Lemma set_agent_context_last_wins c1 id1 c2 id2 s :
  let s' := snd (set_agent_context c2 id2 (snd (set_agent_context c1 id1 s))) in
  _agent_client s' = Some c2 /\ _source_id s' = Some id2
  /\ _sandboxes s' = _sandboxes s /\ trace s' = trace s.
Proof. repeat split. Qed.

(** ** No exception reaches the caller *)

Lemma ret_returns (msg : string) s : returns_string (ret msg) s.
Proof. now exists msg. Qed.

Create HintDb ordinary.

Lemma ordinary_ret {A} (a : A) : ordinary (ret a).
Proof. intros s e s' H. discriminate H. Qed.

Lemma ordinary_raise {A} (e : exn) :
  is_exception e = true -> ordinary (@raise A e).
Proof. intros He s e' s' H. injection H as <- _. exact He. Qed.

Lemma ordinary_bind {A B} (m : Py A) (k : A -> Py B) :
  ordinary m -> (forall a, ordinary (k a)) -> ordinary (bind m k).
Proof.
  intros Hm Hk s e s' H. unfold bind in H.
  destruct (m s) as [[a|e0] s0] eqn:Hrun.
  - exact (Hk a s0 e s' H).
  - injection H as <- <-. exact (Hm s e0 s0 Hrun).
Qed.

Lemma ordinary_emit (ev : event) : ordinary (emit ev).
Proof. intros s e s' H. discriminate H. Qed.

Lemma ordinary_setitem (name : string) (info : Info) :
  ordinary (setitem_sandboxes name info).
Proof. intros s e s' H. discriminate H. Qed.

Lemma ordinary_ask {A} (ev : event) (answer : list event -> exn + A) :
  (forall tr e, answer tr = inl e -> is_exception e = true) ->
  ordinary (ask ev answer).
Proof.
  intros Hans s e s' H. unfold ask in H.
  destruct (answer (trace s)) as [e0|a] eqn:Ha; [|discriminate H].
  injection H as <- _. exact (Hans _ _ Ha).
Qed.

#[local] Hint Resolve ordinary_ret ordinary_emit ordinary_setitem : ordinary.

Ltac ordinary_step :=
  lazymatch goal with
  | |- ordinary (bind _ _) => apply ordinary_bind; [| intro]
  | |- ordinary (if ?b then _ else _) => destruct b
  | |- ordinary (match ?x with _ => _ end) => destruct x
  | |- ordinary (raise _) => apply ordinary_raise; reflexivity
  | |- ordinary (ask _ _) =>
      apply ordinary_ask; cbv beta; intros; first [discriminate | eauto]
  | |- ordinary _ => solve [auto with ordinary]
  end.

Ltac ordinary_tac Hh :=
  destruct Hh as (? & ? & ?);
  unfold print, time_sleep, call_Sandbox_create, call_commands_run,
    call_requests_get, call_time_time, truediv, extremum;
  cbv zeta; repeat ordinary_step.

Lemma ordinary_sample_loop h url n :
  raises_exceptions_only h ->
  forall times, ordinary (sample_loop h url n times).
Proof.
  intro Hh. induction n as [|n IH]; intro times; cbn [sample_loop].
  - apply ordinary_ret.
  - ordinary_tac Hh.
Qed.

Lemma settles_ret h (msg : string) s : settles h (ret msg) s.
Proof.
  split; [intros e H; discriminate H | intros _; apply ret_returns].
Qed.

(** A [try] block whose handler returns a string. *)
Lemma settles_try h (body : Py string) (label : string) s :
  (raises_exceptions_only h -> ordinary body) ->
  settles h (try_except body (fun e => ret (label ++ exn_text e))) s.
Proof.
  intro Hbody. unfold settles, returns_string, try_except.
  destruct (body s) as [[msg|e] s'] eqn:Hrun; cbn [fst].
  - split; [intros e H; discriminate H | intros _; now exists msg].
  - destruct (is_exception e) eqn:He; cbn [fst ret].
    + split; [intros e' H; discriminate H | intros _; eauto].
    + split.
      * intros e' H. now injection H as <-.
      * intro Hh. rewrite (Hbody Hh s e s' Hrun) in He. discriminate He.
Qed.

Lemma bind_import {A} h (m : string) (k : unit -> Py A) s :
  installed h m = true -> bind (import_module h m) k s = k tt s.
Proof. intro Hi. unfold bind, import_module. now rewrite Hi. Qed.

Lemma bind_get_sandboxes {A} (k : Dict.t Info -> Py A) s :
  bind get_sandboxes k s = k (_sandboxes s) s.
Proof. reflexivity. Qed.

Lemma bind_getitem {A} (name : string) (info : Info) (k : Info -> Py A) s :
  Dict.get name (_sandboxes s) = Some info ->
  bind (getitem_sandboxes name) k s = k info s.
Proof. intro Hget. unfold bind, getitem_sandboxes. now rewrite Hget. Qed.

Lemma provision_sandbox_settles h name s :
  installed h "e2b_code_interpreter" = true ->
  settles h (provision_sandbox h name) s.
Proof.
  intro Hi. unfold settles, returns_string, provision_sandbox.
  rewrite !(bind_import h _ _ s Hi). cbv zeta.
  destruct (negb _).
  - apply settles_ret.
  - apply settles_try. intro Hh. ordinary_tac Hh.
Qed.

Lemma list_sandboxes_settles h s : settles h list_sandboxes s.
Proof.
  unfold settles, returns_string, list_sandboxes.
  rewrite !bind_get_sandboxes.
  destruct (_sandboxes s); apply settles_ret.
Qed.

Lemma run_command_settles h sandbox_name command s :
  settles h (run_command h sandbox_name command) s.
Proof.
  unfold settles, returns_string, run_command.
  rewrite !bind_get_sandboxes. unfold Dict.mem.
  destruct (Dict.get sandbox_name (_sandboxes s)) as [info|] eqn:Hget;
    cbn [negb].
  - rewrite !(bind_getitem _ info _ s Hget). cbv zeta.
    apply settles_try. intro Hh. ordinary_tac Hh.
  - apply settles_ret.
Qed.

Lemma deploy_app_settles h sandbox_name repo_url s :
  settles h (deploy_app h sandbox_name repo_url) s.
Proof.
  unfold settles, returns_string, deploy_app.
  rewrite !bind_get_sandboxes. unfold Dict.mem.
  destruct (Dict.get sandbox_name (_sandboxes s)) as [info|] eqn:Hget;
    cbn [negb].
  - rewrite !(bind_getitem _ info _ s Hget). cbv zeta.
    rewrite ?(bind_getitem _ info _ s Hget). cbv zeta.
    apply settles_try. intro Hh. ordinary_tac Hh.
  - apply settles_ret.
Qed.

Lemma verify_url_settles h url s :
  installed h "requests" = true -> settles h (verify_url h url) s.
Proof.
  intro Hi. unfold settles, returns_string, verify_url.
  rewrite !(bind_import h _ _ s Hi).
  apply settles_try. intro Hh. ordinary_tac Hh.
Qed.

Lemma check_latency_settles h url samples s :
  installed h "requests" = true ->
  settles h (check_latency h url samples) s.
Proof.
  intro Hi. unfold settles, returns_string, check_latency.
  rewrite !(bind_import h _ _ s Hi).
  apply settles_try. intro Hh.
  apply ordinary_bind; [now apply ordinary_sample_loop | intro times].
  ordinary_tac Hh.
Qed.




(** * Further properties of the tools *)

(** ** provision_sandbox: the success path *)

Lemma mark_ok_provisioned name sb :
  String.prefix "✅" (provisioned_message name sb) = true.
Proof. reflexivity. Qed.

(** X1.  When the SDK is importable, the credential is set and the
    creation returns a sandbox, [provision_sandbox] returns the success
    message, which shows the name, the identifier and the URL; the name
    then looks up the new record, whose URL is built from the identifier;
    and the call made one creation request with timeout 600, then read the
    clock. *)
Theorem provision_sandbox_registers
    (h : Host) (name : string) (s : State) (sb : Sandbox) :
  installed h "e2b_code_interpreter" = true ->
  has_credential h = true ->
  Sandbox_create h (create_history name s) 600 = inr sb ->
  let run := provision_sandbox h name in
  let url := "https://8000-" ++ sandbox_id sb ++ ".e2b.app" in
  fst (run s) = Return (provisioned_message name sb)
  /\ Dict.get name (_sandboxes (snd (run s))) =
       Some (MkInfo sb (sandbox_id sb) url
               (time_time h (created_at_history name s)))
  /\ Dict.mem name (_sandboxes (snd (run s))) = true
  /\ new_events run s =
       [Print ("🚀 Provisioning sandbox: " ++ name); SandboxCreate 600;
        TimeTime]
  /\ PyStr.contains name (provisioned_message name sb)
  /\ PyStr.contains (sandbox_id sb) (provisioned_message name sb)
  /\ PyStr.contains url (provisioned_message name sb).
Proof.
  intros Hi Hc Hr run url. subst run url.
  pose proof (provision_created h name s sb Hi Hc Hr) as Hrun.
  rewrite Hrun. cbn [fst snd _sandboxes].
  split; [reflexivity|]. split; [apply dict_get_set_same|].
  split; [unfold Dict.mem; now rewrite dict_get_set_same|].
  split.
  - apply new_events_extend. rewrite Hrun. cbn [snd trace].
    unfold created_at_history, create_history.
    now rewrite <- !app_assoc.
  - unfold provisioned_message. repeat split.
    + exists ("✅ Sandbox provisioned!" ++ PyStr.nl ++ "📦 Name: "),
        (PyStr.nl ++ "🆔 ID: " ++ sandbox_id sb ++ PyStr.nl
         ++ "🔗 URL: " ++ "https://8000-" ++ sandbox_id sb ++ ".e2b.app").
      now rewrite !append_associative.
    + exists ("✅ Sandbox provisioned!" ++ PyStr.nl ++ "📦 Name: " ++ name
              ++ PyStr.nl ++ "🆔 ID: "),
        (PyStr.nl ++ "🔗 URL: " ++ "https://8000-" ++ sandbox_id sb
         ++ ".e2b.app").
      now rewrite !append_associative.
    + exists ("✅ Sandbox provisioned!" ++ PyStr.nl ++ "📦 Name: " ++ name
              ++ PyStr.nl ++ "🆔 ID: " ++ sandbox_id sb ++ PyStr.nl
              ++ "🔗 URL: "), EmptyString.
      now rewrite !append_associative, append_nil_right.
Qed.

Lemma provision_sandbox_registers_witness :
  let s1 := snd (provision_sandbox Demo.healthy "web" initial) in
  Dict.get "web" (_sandboxes s1) =
    Some (MkInfo Demo.web "ib3k9" "https://8000-ib3k9.e2b.app" 2%float)
  /\ new_events (provision_sandbox Demo.healthy "web") initial =
       [Print "🚀 Provisioning sandbox: web"; SandboxCreate 600; TimeTime].
Proof.
  pose proof (provision_sandbox_registers Demo.healthy "web" initial Demo.web
                eq_refl eq_refl eq_refl) as (_ & Hget & _ & Hev & _).
  exact (conj Hget Hev).
Defined.

(** X2.  A credential set to the empty string counts as missing:
    [provision_sandbox] returns the credential message and nothing else
    happens, no output and no remote call. *)
Theorem provision_sandbox_empty_key (h : Host) (name : string) (s : State) :
  installed h "e2b_code_interpreter" = true ->
  environ h "E2B_API_KEY" = Some EmptyString ->
  provision_sandbox h name s =
    (Return "❌ E2B_API_KEY not set. Please configure your API key.", s)
  /\ new_events (provision_sandbox h name) s = [].
Proof.
  intros Hi Hkey.
  assert (has_credential h = false) as Hc
    by (unfold has_credential; now rewrite Hkey).
  pose proof (provision_no_credential h name s Hi Hc) as Hrun.
  split; [assumption|]. apply new_events_none. now rewrite Hrun.
Qed.

Lemma provision_sandbox_empty_key_witness :
  provision_sandbox Stub.blank_key "web" initial =
    (Return "❌ E2B_API_KEY not set. Please configure your API key.", initial).
Proof.
  exact (proj1 (provision_sandbox_empty_key Stub.blank_key "web" initial
                  eq_refl eq_refl)).
Defined.

(** X3.  A successful [provision_sandbox] keeps the order of the registry:
    a name already registered stays at its place, a new name goes to the
    end.  Successful or not, the records under every other name are what
    they were. *)
Theorem provision_sandbox_keeps_order (h : Host) (name : string) (s : State) :
  let s' := snd (provision_sandbox h name s) in
  (provisioned name (fst (provision_sandbox h name s)) ->
     (In name (Dict.keys (_sandboxes s)) ->
        Dict.keys (_sandboxes s') = Dict.keys (_sandboxes s))
     /\ (~ In name (Dict.keys (_sandboxes s)) ->
           Dict.keys (_sandboxes s') = (Dict.keys (_sandboxes s) ++ [name])%list))
  /\ (forall other,
        other <> name ->
        Dict.get other (_sandboxes s') = Dict.get other (_sandboxes s)).
Proof.
  intro s'. subst s'. split.
  - intros [sb Hsb].
    destruct (provision_dichotomy h name s)
      as [(sb' & _ & _ & _ & _ & ->)|[_ Hnot]].
    + split; intro Hin.
      * now apply dict_keys_set_present.
      * now apply dict_keys_set_absent.
    + now destruct (Hnot sb).
  - intros other Hne. now apply provision_keeps_other_names.
Qed.

Lemma provision_sandbox_keeps_order_witness :
  let s2 := snd (provision_all Demo.healthy ["web"; "api"] initial) in
  Dict.keys (_sandboxes (snd (provision_sandbox Demo.healthy "web" s2))) =
    ["web"; "api"]
  /\ Dict.keys (_sandboxes (snd (provision_sandbox Demo.healthy "db" s2))) =
       ["web"; "api"; "db"].
Proof.
  intro s2. split.
  - apply (proj1 (provision_sandbox_keeps_order Demo.healthy "web" s2)).
    + eexists. reflexivity.
    + simpl. tauto.
  - apply (proj1 (provision_sandbox_keeps_order Demo.healthy "db" s2)).
    + eexists. reflexivity.
    + simpl. intuition discriminate.
Defined.

(** X4.  The string [provision_sandbox] returns starts with the success
    mark exactly when the SDK was importable, the credential was set and the
    creation returned a sandbox; so a caller reading the first character
    knows whether the registry was written. *)
Theorem provision_sandbox_mark_iff (h : Host) (name : string) (s : State) :
  (exists msg,
      fst (provision_sandbox h name s) = Return msg
      /\ String.prefix "✅" msg = true)
  <-> (installed h "e2b_code_interpreter" = true
       /\ has_credential h = true
       /\ exists sb, Sandbox_create h (create_history name s) 600 = inr sb).
Proof.
  split.
  - intros (msg & Hret & Hmark).
    destruct (installed h "e2b_code_interpreter") eqn:Hi.
    2:{ rewrite provision_not_installed in Hret by assumption.
        discriminate Hret. }
    destruct (has_credential h) eqn:Hc.
    2:{ rewrite provision_no_credential in Hret by assumption.
        cbn [fst] in Hret. injection Hret as <-. discriminate Hmark. }
    destruct (Sandbox_create h (create_history name s) 600) as [e|sb] eqn:Hr.
    + rewrite (provision_create_raises _ _ _ _ Hi Hc Hr) in Hret.
      unfold reported in Hret. cbn [fst] in Hret.
      destruct (is_exception e); [|discriminate Hret].
      injection Hret as <-. discriminate Hmark.
    + eauto.
  - intros (Hi & Hc & sb & Hr). exists (provisioned_message name sb).
    rewrite (provision_created _ _ _ _ Hi Hc Hr).
    split; [reflexivity | apply mark_ok_provisioned].
Qed.

(** ** run_command: one command, to the registered sandbox *)

Lemma run_command_remote h sandbox_name command s info :
  Dict.get sandbox_name (_sandboxes s) = Some info ->
  filter is_remote (new_events (run_command h sandbox_name command) s) =
  [CommandsRun (info_sandbox info) command None].
Proof.
  intro Hget.
  destruct (commands_run h (run_history command s) (info_sandbox info)
              command None) as [e|r] eqn:Hrun.
  - rewrite (new_events_of_run _ _ _ _
               [Print ("⚡ Running: " ++ command);
                CommandsRun (info_sandbox info) command None]
               (run_command_raises h _ _ s info e Hget Hrun)).
    + reflexivity.
    + unfold run_history. now rewrite <- app_assoc.
  - rewrite (new_events_of_run _ _ _ _
               [Print ("⚡ Running: " ++ command);
                CommandsRun (info_sandbox info) command None]
               (run_command_known h _ _ s info r Hget Hrun)).
    + reflexivity.
    + unfold run_history. now rewrite <- app_assoc.
Qed.

(** X5.  On a registered name [run_command] makes exactly one remote call,
    whether the command returns or raises: the given command, sent without
    a timeout to the handle stored under that name.  It is not retried.  If
    the call raises an instance [e] of [Exception], the result is the
    command-failed message followed by [str(e)]; if it raises an exception
    outside [Exception], such as [KeyboardInterrupt], that exception
    reaches the caller. *)
Theorem run_command_sends_once
    (h : Host) (sandbox_name command : string) (s : State) (info : Info) :
  Dict.get sandbox_name (_sandboxes s) = Some info ->
  let answer :=
    commands_run h (run_history command s) (info_sandbox info) command None in
  filter is_remote (new_events (run_command h sandbox_name command) s) =
    [CommandsRun (info_sandbox info) command None]
  /\ (forall e,
        answer = inl e -> is_exception e = true ->
        fst (run_command h sandbox_name command s) =
          Return ("❌ Command failed: " ++ exn_text e))
  /\ (forall e,
        answer = inl e -> is_exception e = false ->
        fst (run_command h sandbox_name command s) = Raise e).
Proof.
  intros Hget answer. subst answer. split; [|split].
  - now apply run_command_remote.
  - intros e Hrun He. rewrite (run_command_raises h _ _ s info e Hget Hrun).
    unfold reported. now rewrite He.
  - intros e Hrun He. rewrite (run_command_raises h _ _ s info e Hget Hrun).
    unfold reported. now rewrite He.
Qed.

Lemma run_command_sends_once_witness :
  filter is_remote
    (new_events (run_command Stub.sandbox_gone "web" "ls") Demo.one_sandbox) =
    [CommandsRun Demo.web "ls" None]
  /\ fst (run_command Stub.sandbox_gone "web" "ls" Demo.one_sandbox) =
       Return "❌ Command failed: context deadline exceeded"
  /\ fst (run_command Stub.interrupted "web" "ls" Demo.one_sandbox) =
       Raise (BaseExn "KeyboardInterrupt" "stop").
Proof.
  pose proof (run_command_sends_once Stub.sandbox_gone "web" "ls"
                Demo.one_sandbox (info_of Demo.web 2%float) eq_refl)
    as (Hsent & Hfail & _).
  pose proof (run_command_sends_once Stub.interrupted "web" "ls"
                Demo.one_sandbox (info_of Demo.web 2%float) eq_refl)
    as (_ & _ & Hpass).
  split; [exact Hsent|]. split.
  - exact (Hfail (Exn "TimeoutException" "context deadline exceeded")
             eq_refl eq_refl).
  - exact (Hpass (BaseExn "KeyboardInterrupt" "stop") eq_refl eq_refl).
Defined.

(** X6.  The string [run_command] returns starts with the success mark
    exactly when the name is registered, the command returned and its exit
    code is 0.  The not-found message, the command-failed message and the
    report of a non-zero exit code all start with another mark. *)
Theorem run_command_mark_iff
    (h : Host) (sandbox_name command : string) (s : State) :
  (exists msg,
      fst (run_command h sandbox_name command s) = Return msg
      /\ String.prefix "✅" msg = true)
  <-> (exists info r,
          Dict.get sandbox_name (_sandboxes s) = Some info
          /\ commands_run h (run_history command s) (info_sandbox info)
               command None = inr r
          /\ exit_code r = 0).
Proof.
  split.
  - intros (msg & Hret & Hmark).
    destruct (Dict.get sandbox_name (_sandboxes s)) as [info|] eqn:Hget.
    + destruct (commands_run h (run_history command s) (info_sandbox info)
                  command None) as [e|r] eqn:Hrun.
      * rewrite (run_command_raises h _ _ s info e Hget Hrun) in Hret.
        unfold reported in Hret. cbn [fst] in Hret.
        destruct (is_exception e); [|discriminate Hret].
        injection Hret as <-. discriminate Hmark.
      * rewrite (run_command_known h _ _ s info r Hget Hrun) in Hret.
        cbn [fst] in Hret. injection Hret as <-.
        destruct (Z.eqb_spec (exit_code r) 0) as [E|E]; [eauto|].
        discriminate Hmark.
    + assert (~ In sandbox_name (Dict.keys (_sandboxes s))) as Hnin.
      { intro Hin. apply dict_mem_In in Hin. unfold Dict.mem in Hin.
        rewrite Hget in Hin. discriminate Hin. }
      rewrite (run_command_unknown h _ command s Hnin) in Hret.
      cbn [fst] in Hret. injection Hret as <-. discriminate Hmark.
  - intros (info & r & Hget & Hrun & E).
    rewrite (run_command_known h _ _ s info r Hget Hrun). cbn [fst].
    eexists. split; [reflexivity|]. rewrite E. reflexivity.
Qed.

(** X7.  After a successful [provision_sandbox] under a name,
    [run_command] on that name talks to the sandbox just created, whatever
    was registered under the name before: a replaced handle receives no
    further command. *)
Theorem run_command_uses_latest_sandbox
    (h h' : Host) (name command : string) (s : State) (sb : Sandbox) :
  installed h "e2b_code_interpreter" = true ->
  has_credential h = true ->
  Sandbox_create h (create_history name s) 600 = inr sb ->
  filter is_remote
    (new_events (run_command h' name command)
                (snd (provision_sandbox h name s))) =
  [CommandsRun sb command None].
Proof.
  intros Hi Hc Hr.
  apply (run_command_remote h' name command _
           (info_of sb (time_time h (created_at_history name s)))).
  rewrite (provision_created h name s sb Hi Hc Hr). cbn [snd _sandboxes].
  apply dict_get_set_same.
Qed.

Lemma run_command_uses_latest_sandbox_witness :
  filter is_remote
    (new_events (run_command Demo.healthy "web" "ls")
       (snd (provision_sandbox Demo.healthy "web" Demo.one_sandbox))) =
  [CommandsRun (MkSandbox "ib3k9" 4) "ls" None].
Proof.
  exact (run_command_uses_latest_sandbox Demo.healthy Demo.healthy "web" "ls"
           Demo.one_sandbox (MkSandbox "ib3k9" 4) eq_refl eq_refl eq_refl).
Defined.

(** ** deploy_app: the remaining paths *)

Ltac since_start :=
  cbn [fst snd trace with_trace]; repeat rewrite <- app_assoc;
  rewrite skipn_length_app.

(** X8.  On a name that is not registered [deploy_app] returns its
    not-found message, which tells to provision first, and does nothing
    else: no output, no command, no change of state. *)
Theorem deploy_app_unknown_sandbox
    (h : Host) (sandbox_name repo_url : string) (s : State) :
  ~ In sandbox_name (Dict.keys (_sandboxes s)) ->
  deploy_app h sandbox_name repo_url s =
    (Return ("❌ Sandbox '" ++ sandbox_name
             ++ "' not found. Provision one first."), s)
  /\ new_events (deploy_app h sandbox_name repo_url) s = [].
Proof.
  intro Hnin.
  assert (deploy_app h sandbox_name repo_url s =
          (Return ("❌ Sandbox '" ++ sandbox_name
                   ++ "' not found. Provision one first."), s)) as Hrun.
  { py_unfold. unfold Dict.mem. now rewrite (dict_get_absent _ _ Hnin). }
  split; [assumption|]. apply new_events_none. now rewrite Hrun.
Qed.

Lemma deploy_app_unknown_sandbox_witness :
  deploy_app Demo.healthy "api" Demo.repo Demo.one_sandbox =
    (Return "❌ Sandbox 'api' not found. Provision one first.",
     Demo.one_sandbox).
Proof.
  apply (deploy_app_unknown_sandbox Demo.healthy "api" Demo.repo
           Demo.one_sandbox).
  simpl. intuition discriminate.
Defined.

(** X9.  An exception from any of the five commands of [deploy_app] ends
    the call, and no later command is sent.  An instance of [Exception] is
    turned into the deployment-failed message followed by [str(e)]; an
    exception outside [Exception] reaches the caller.  This holds for the
    launch command too, whose exit code is never read but whose exception
    is handled like the others. *)
Theorem deploy_app_exception_paths
    (h : Host) (sandbox_name repo_url : string) (s : State) (info : Info)
    (e : exn) :
  Dict.get sandbox_name (_sandboxes s) = Some info ->
  let sb := info_sandbox info in
  let deploy := deploy_app h sandbox_name repo_url in
  let clone :=
    commands_run h (clone_history s) sb (clone_command repo_url) None in
  let install :=
    commands_run h (install_history sb repo_url s) sb install_command
      (Some 120) in
  let build :=
    commands_run h (build_history sb repo_url s) sb build_command
      (Some 120) in
  let serve :=
    commands_run h (serve_history sb repo_url s) sb serve_command None in
  let probe :=
    commands_run h (probe_history sb repo_url s) sb probe_command None in
  let failed := reported "❌ Deployment failed: " e in
  (clone = inl e ->
     fst (deploy s) = failed
     /\ commands_of (new_events deploy s) = [clone_command repo_url])
  /\ (exits_zero clone -> install = inl e ->
        fst (deploy s) = failed
        /\ commands_of (new_events deploy s) =
           [clone_command repo_url; install_command])
  /\ (exits_zero clone -> exits_zero install -> build = inl e ->
        fst (deploy s) = failed
        /\ commands_of (new_events deploy s) =
           [clone_command repo_url; install_command; build_command])
  /\ (exits_zero clone -> exits_zero install -> exits_zero build ->
      serve = inl e ->
        fst (deploy s) = failed
        /\ commands_of (new_events deploy s) =
           [clone_command repo_url; install_command; build_command;
            serve_command])
  /\ (exits_zero clone -> exits_zero install -> exits_zero build ->
      forall r4, serve = inr r4 -> probe = inl e ->
        fst (deploy s) = failed
        /\ commands_of (new_events deploy s) =
           [clone_command repo_url; install_command; build_command;
            serve_command; probe_command]).
Proof.
  intros Hget sb deploy clone install build serve probe failed.
  subst sb deploy clone install build serve probe failed.
  unfold exits_zero, new_events. split; [|split; [|split; [|split]]].
  - intros H1. deploy_open Hget. answer H1.
    unfold reported. destruct (is_exception e);
      (split; [reflexivity | since_start; reflexivity]).
  - intros (r1 & H1 & E1) H2. deploy_open Hget.
    answer H1. exit_is_zero E1. answer H2.
    unfold reported. destruct (is_exception e);
      (split; [reflexivity | since_start; reflexivity]).
  - intros (r1 & H1 & E1) (r2 & H2 & E2) H3. deploy_open Hget.
    answer H1. exit_is_zero E1. answer H2. exit_is_zero E2. answer H3.
    unfold reported. destruct (is_exception e);
      (split; [reflexivity | since_start; reflexivity]).
  - intros (r1 & H1 & E1) (r2 & H2 & E2) (r3 & H3 & E3) H4.
    deploy_open Hget.
    answer H1. exit_is_zero E1. answer H2. exit_is_zero E2.
    answer H3. exit_is_zero E3. answer H4.
    unfold reported. destruct (is_exception e);
      (split; [reflexivity | since_start; reflexivity]).
  - intros (r1 & H1 & E1) (r2 & H2 & E2) (r3 & H3 & E3) r4 H4 H5.
    deploy_open Hget.
    answer H1. exit_is_zero E1. answer H2. exit_is_zero E2.
    answer H3. exit_is_zero E3. answer H4. answer H5.
    unfold reported. destruct (is_exception e);
      (split; [reflexivity | since_start; reflexivity]).
Qed.

Lemma deploy_app_exception_paths_witness :
  fst (deploy_app Stub.launch_raises "web" Demo.repo Demo.one_sandbox) =
    Return "❌ Deployment failed: context deadline exceeded"
  /\ commands_of (new_events (deploy_app Stub.launch_raises "web" Demo.repo)
                    Demo.one_sandbox) =
     [clone_command Demo.repo; install_command; build_command; serve_command].
Proof.
  assert (forall (a : exn + CommandResult) r,
             a = inr r -> exit_code r = 0 -> exits_zero a) as Hzero
    by (intros a r Ha Hr; exists r; now split).
  pose (ok := MkResult "done" EmptyString 0).
  apply (proj1 (proj2 (proj2 (proj2
           (deploy_app_exception_paths Stub.launch_raises "web" Demo.repo
              Demo.one_sandbox (info_of Demo.web 2%float)
              (Exn "TimeoutException" "context deadline exceeded")
              eq_refl)))));
    try (apply (Hzero _ ok); reflexivity).
  reflexivity.
Defined.

Ltac prefix_found k :=
  exists k; split; [lia|];
  split; [since_start; reflexivity|];
  split; [try (intros _; reflexivity); other_message|];
  first [ left; eexists; split; [reflexivity|];
          first [left; reflexivity | right; reflexivity]
        | right; eexists; split; [reflexivity | assumption] ].

Ltac prefix_of_pipeline k :=
  try match goal with
      | |- context [is_exception ?e] => destruct (is_exception e) eqn:?
      end;
  prefix_found k.

(** X10.  Whatever the sandbox answers, the remote calls of [deploy_app]
    on a registered name are a non-empty initial part of one fixed list:
    clone, install with timeout 120, build with timeout 120, launch, probe,
    all sent to the handle stored under the name.  No command is sent twice
    or out of order, and the success message is returned only after all
    five.  A returned string is the success message or starts with the
    failure mark; what is raised instead is an exception outside
    [Exception]. *)
Theorem deploy_app_commands_prefix
    (h : Host) (sandbox_name repo_url : string) (s : State) (info : Info) :
  Dict.get sandbox_name (_sandboxes s) = Some info ->
  let deploy := deploy_app h sandbox_name repo_url in
  exists k,
    (1 <= k <= 5)%nat
    /\ filter is_remote (new_events deploy s) =
       firstn k (pipeline (info_sandbox info) repo_url)
    /\ (fst (deploy s) = Return (deployed_message (info_base_url info)) ->
        k = 5%nat)
    /\ ((exists msg,
            fst (deploy s) = Return msg
            /\ (msg = deployed_message (info_base_url info)
                \/ String.prefix "❌" msg = true))
        \/ (exists e, fst (deploy s) = Raise e /\ is_exception e = false)).
Proof.
  intros Hget deploy. subst deploy. unfold new_events, pipeline.
  deploy_open Hget.
  split_answer; [prefix_of_pipeline 1%nat|].
  split_exit; [|prefix_of_pipeline 1%nat].
  split_answer; [prefix_of_pipeline 2%nat|].
  split_exit; [|prefix_of_pipeline 2%nat].
  split_answer; [prefix_of_pipeline 3%nat|].
  split_exit; [|prefix_of_pipeline 3%nat].
  split_answer; [prefix_of_pipeline 4%nat|].
  split_answer; [prefix_of_pipeline 5%nat|].
  split_exit; prefix_of_pipeline 5%nat.
Qed.

Lemma deploy_app_commands_prefix_witness :
  exists k,
    (1 <= k <= 5)%nat
    /\ filter is_remote
         (new_events (deploy_app Demo.install_broken "web" Demo.repo)
                     Demo.one_sandbox) =
       firstn k (pipeline Demo.web Demo.repo).
Proof.
  destruct (deploy_app_commands_prefix Demo.install_broken "web" Demo.repo
              Demo.one_sandbox (info_of Demo.web 2%float) eq_refl)
    as (k & Hk & Hsent & _).
  exists k. exact (conj Hk Hsent).
Defined.

(** ** verify_url and the import of requests *)

(** X11.  With [requests] importable, [verify_url] sends exactly one GET,
    to the given URL with timeout 10 and redirects followed, whatever the
    answer.  The clock is read once before it and, when it returns, once
    after it; when it raises the second reading is skipped.  The request
    is never repeated. *)
Theorem verify_url_single_request (h : Host) (url : string) (s : State) :
  installed h "requests" = true ->
  let verify := verify_url h url in
  let answer :=
    requests_get h (verify_get_history url s) url 10 (Some true) in
  let get := RequestsGet url 10 (Some true) in
  let said := Print ("🔍 Verifying " ++ url ++ "...") in
  filter is_remote (new_events verify s) = [get]
  /\ (forall resp, answer = inr resp ->
        new_events verify s = [said; TimeTime; get; TimeTime])
  /\ (forall e, answer = inl e ->
        new_events verify s = [said; TimeTime; get]).
Proof.
  intros Hi verify answer get said. subst verify answer get said.
  unfold new_events, verify_get_history, verify_start_history.
  py_unfold. rewrite Hi. py_proj.
  destruct (requests_get h _ url 10 (Some true)) as [e|resp] eqn:Hget;
    py_proj.
  - destruct (is_exception e); since_start;
      (split; [reflexivity|]; split;
       [intros resp Habs; discriminate Habs | intros e' _; reflexivity]).
  - destruct (status_code resp =? 200); since_start;
      (split; [reflexivity|]; split;
       [intros resp' _; reflexivity | intros e Habs; discriminate Habs]).
Qed.

Lemma verify_url_single_request_witness :
  filter is_remote
    (new_events (verify_url Stub.unreachable "https://example.com") initial) =
    [RequestsGet "https://example.com" 10 (Some true)]
  /\ fst (verify_url Stub.unreachable "https://example.com" initial) =
       Return "❌ Failed: connection refused".
Proof.
  split.
  - exact (proj1 (verify_url_single_request Stub.unreachable
                    "https://example.com" initial eq_refl)).
  - reflexivity.
Defined.

(** X12.  Without [requests] installed, [verify_url] and [check_latency]
    raise the import error to their caller before anything else happens:
    no output, no clock reading, no request, no change of state.  Their
    handlers do not cover the import. *)
Theorem requests_import_error_escapes
    (h : Host) (url : string) (samples : Z) (s : State) :
  installed h "requests" = false ->
  let missing :=
    Raise (Exn "ModuleNotFoundError" "No module named 'requests'") in
  verify_url h url s = (missing, s)
  /\ check_latency h url samples s = (missing, s).
Proof.
  intros Hi missing. subst missing.
  unfold verify_url, check_latency, import_module, bind.
  now rewrite Hi.
Qed.

Lemma requests_import_error_escapes_witness :
  verify_url Demo.bare "https://example.com" initial =
    (Raise (Exn "ModuleNotFoundError" "No module named 'requests'"), initial)
  /\ check_latency Demo.bare "https://example.com" 3 initial =
       (Raise (Exn "ModuleNotFoundError" "No module named 'requests'"),
        initial).
Proof.
  exact (requests_import_error_escapes Demo.bare "https://example.com" 3
           initial eq_refl).
Defined.

(** ** check_latency: the sampling loop *)

Section SamplingLoop.
Variables (h : Host) (url : string).

Let tick := TimeTime.
Let get := RequestsGet url 10 None.

Lemma with_trace_same s : with_trace (trace s) s = s.
Proof. now destruct s. Qed.

Lemma blocks_shift tr i :
  ((((tr ++ [tick]) ++ [get]) ++ [tick]) ++ sample_blocks url i)%list =
  (tr ++ sample_blocks url (S i))%list.
Proof.
  subst tick get. cbn [sample_blocks]. unfold sample_block.
  now rewrite <- !app_assoc.
Qed.

Lemma get_history_shift tr i :
  sample_get_history url (((tr ++ [tick]) ++ [get]) ++ [tick]) i =
  sample_get_history url tr (S i).
Proof.
  unfold sample_get_history.
  rewrite (app_assoc _ (sample_blocks url i)), blocks_shift.
  now rewrite <- app_assoc.
Qed.

Lemma sample_time_shift tr i :
  sample_time h url (((tr ++ [tick]) ++ [get]) ++ [tick]) i =
  sample_time h url tr (S i).
Proof.
  unfold sample_time.
  rewrite (app_assoc _ (sample_blocks url i) [TimeTime; _]), !blocks_shift.
  now rewrite <- app_assoc.
Qed.

Lemma sample_times_shift tr n :
  sample_times h url tr (S n) =
  sample_time h url tr 0
  :: sample_times h url (((tr ++ [tick]) ++ [get]) ++ [tick]) n.
Proof.
  unfold sample_times. cbn [seq map]. f_equal.
  rewrite <- seq_shift, map_map. apply map_ext.
  intro i. now rewrite sample_time_shift.
Qed.

Lemma sample_time_first tr :
  sample_time h url tr 0 =
  elapsed_ms (time_time h tr) (time_time h ((tr ++ [tick]) ++ [get])).
Proof.
  unfold sample_time. cbn [sample_blocks app].
  now rewrite app_nil_r, <- app_assoc.
Qed.

Lemma answered_shift tr n :
  (forall i, (i < S n)%nat -> answered h url tr i) ->
  forall i, (i < n)%nat ->
       answered h url (((tr ++ [tick]) ++ [get]) ++ [tick]) i.
Proof.
  intros Hall i Hi. unfold answered. rewrite get_history_shift.
  apply Hall. lia.
Qed.

(** One turn whose GET returns. *)
Lemma sample_loop_turn n times s resp :
  requests_get h (trace s ++ [tick]) url 10 None = inr resp ->
  sample_loop h url (S n) times s =
  sample_loop h url n
    (times ++ [elapsed_ms (time_time h (trace s))
                          (time_time h ((trace s ++ [tick]) ++ [get]))])%list
    (with_trace (((trace s ++ [tick]) ++ [get]) ++ [tick]) s).
Proof.
  intro Hget. cbn [sample_loop].
  unfold call_time_time, call_requests_get, ask, bind. py_proj.
  subst tick get. rewrite Hget. reflexivity.
Qed.

Lemma first_get_history tr :
  sample_get_history url tr 0 = (tr ++ [tick])%list.
Proof. reflexivity. Qed.

Lemma sample_loop_returns n : forall times s,
  (forall i, (i < n)%nat -> answered h url (trace s) i) ->
  sample_loop h url n times s =
  (Return (times ++ sample_times h url (trace s) n)%list,
   with_trace (trace s ++ sample_blocks url n) s).
Proof.
  induction n as [|n IH]; intros times s Hall.
  - cbn [sample_loop sample_blocks]. unfold sample_times. cbn [seq map].
    now rewrite !app_nil_r, with_trace_same.
  - destruct (Hall 0%nat ltac:(lia)) as [resp Hget].
    rewrite first_get_history in Hget.
    rewrite (sample_loop_turn n times s resp Hget), IH.
    + cbn [trace with_trace]. rewrite blocks_shift, sample_times_shift.
      rewrite sample_time_first, <- app_assoc. reflexivity.
    + cbn [trace with_trace]. now apply answered_shift.
Qed.

Lemma sample_loop_raises k : forall n times s e,
  (k < n)%nat ->
  (forall i, (i < k)%nat -> answered h url (trace s) i) ->
  requests_get h (sample_get_history url (trace s) k) url 10 None = inl e ->
  sample_loop h url n times s =
  (Raise e,
   with_trace (trace s ++ sample_blocks url k ++ [tick; get]) s).
Proof.
  induction k as [|k IH]; intros n times s e Hlt Hall Hraise;
    destruct n as [|n]; try lia.
  - rewrite first_get_history in Hraise. cbn [sample_loop sample_blocks app].
    unfold call_time_time, call_requests_get, ask, bind. py_proj.
    subst tick get. rewrite Hraise. now rewrite <- app_assoc.
  - destruct (Hall 0%nat ltac:(lia)) as [resp Hget].
    rewrite first_get_history in Hget.
    rewrite (sample_loop_turn n times s resp Hget).
    rewrite (IH n _ _ e).
    + cbn [trace with_trace]. now rewrite app_assoc, blocks_shift, <- app_assoc.
    + lia.
    + cbn [trace with_trace]. now apply answered_shift.
    + cbn [trace with_trace]. now rewrite get_history_shift.
Qed.

Lemma remote_of_blocks n :
  filter is_remote (sample_blocks url n) = repeat get n.
Proof.
  induction n as [|n IH]; [reflexivity|].
  cbn [sample_blocks]. unfold sample_block. cbn [app filter is_remote repeat].
  now rewrite IH.
Qed.

Lemma remote_of_aborted k :
  filter is_remote (sample_blocks url k ++ [tick; get]) = repeat get (S k).
Proof.
  rewrite filter_app, remote_of_blocks. cbn [filter is_remote tick].
  now rewrite <- repeat_cons.
Qed.

End SamplingLoop.

(** X13.  With [requests] importable, a positive [samples] and every GET
    answered, [check_latency] makes exactly [samples] turns, one after the
    other: clock, GET with timeout 10 and nothing else, clock.  It keeps one
    latency per turn, the clock difference around that turn's GET times
    1000, in order, and returns the latency message built from their sum
    divided by their number, their minimum and their maximum.  The status
    of the responses is never looked at. *)
Theorem check_latency_samples
    (h : Host) (url : string) (samples : Z) (s : State) :
  installed h "requests" = true ->
  1 <= samples ->
  (forall i, (i < Z.to_nat samples)%nat -> answered h url (trace s) i) ->
  let n := Z.to_nat samples in
  let times := sample_times h url (trace s) n in
  fst (check_latency h url samples s) = Return (latency_message h times)
  /\ length times = n
  /\ new_events (check_latency h url samples) s = sample_blocks url n
  /\ filter is_remote (new_events (check_latency h url samples) s) =
     repeat (RequestsGet url 10 None) n.
Proof.
  intros Hi Hpos Hall n times. subst times n.
  assert (check_latency h url samples s =
          (Return (latency_message h
                     (sample_times h url (trace s) (Z.to_nat samples))),
           with_trace (trace s ++ sample_blocks url (Z.to_nat samples)) s))
    as Hrun.
  { unfold check_latency, import_module, bind, try_except. rewrite Hi.
    rewrite (sample_loop_returns h url _ [] s Hall). cbn [app].
    destruct (Z.to_nat samples) as [|n] eqn:Hn; [lia|].
    rewrite sample_times_shift. reflexivity. }
  assert (new_events (check_latency h url samples) s =
          sample_blocks url (Z.to_nat samples)) as Hev
    by (apply new_events_extend; now rewrite Hrun).
  rewrite Hev, Hrun. repeat split.
  - unfold sample_times. now rewrite length_map, length_seq.
  - apply remote_of_blocks.
Qed.

Lemma check_latency_samples_witness :
  fst (check_latency Demo.healthy "https://example.com" 3 initial) =
    Return "📊 Latency: 1ms avg (1-1ms)"
  /\ filter is_remote
       (new_events (check_latency Demo.healthy "https://example.com" 3)
                   initial) =
     [RequestsGet "https://example.com" 10 None;
      RequestsGet "https://example.com" 10 None;
      RequestsGet "https://example.com" 10 None].
Proof.
  pose proof (check_latency_samples Demo.healthy "https://example.com" 3
                initial eq_refl ltac:(lia)) as Hspec.
  destruct Hspec as (Hret & _ & _ & Hsent).
  - intros i _. now exists (MkResponse 200).
  - exact (conj Hret Hsent).
Defined.

(** X14.  When the GET of some turn raises after all earlier ones were
    answered, [check_latency] stops there: the latencies measured so far
    are dropped and no further request is sent.  If the exception is an
    instance of [Exception] the result is the failure message followed by
    [str(e)]; otherwise the exception reaches the caller. *)
Theorem check_latency_aborts
    (h : Host) (url : string) (samples : Z) (s : State) (k : nat) (e : exn) :
  installed h "requests" = true ->
  (k < Z.to_nat samples)%nat ->
  (forall i, (i < k)%nat -> answered h url (trace s) i) ->
  requests_get h (sample_get_history url (trace s) k) url 10 None = inl e ->
  (is_exception e = true ->
   fst (check_latency h url samples s) = Return ("❌ Failed: " ++ exn_text e))
  /\ (is_exception e = false ->
      fst (check_latency h url samples s) = Raise e)
  /\ filter is_remote (new_events (check_latency h url samples) s) =
     repeat (RequestsGet url 10 None) (S k).
Proof.
  intros Hi Hlt Hall Hraise.
  assert (check_latency h url samples s =
          (reported "❌ Failed: " e,
           with_trace (trace s ++ sample_blocks url k
                         ++ [TimeTime; RequestsGet url 10 None]) s))
    as Hrun.
  { unfold check_latency, import_module, bind, try_except, reported.
    rewrite Hi.
    rewrite (sample_loop_raises h url k _ [] s e Hlt Hall Hraise).
    now destruct (is_exception e). }
  rewrite Hrun. unfold reported. cbn [fst].
  split; [now intros ->|]. split; [now intros ->|].
  rewrite (new_events_extend _ s
             (sample_blocks url k ++ [TimeTime; RequestsGet url 10 None])).
  - apply remote_of_aborted.
  - now rewrite Hrun.
Qed.

Lemma check_latency_aborts_witness :
  fst (check_latency Stub.third_get_fails "https://example.com" 5 initial) =
    Return "❌ Failed: read timed out"
  /\ filter is_remote
       (new_events (check_latency Stub.third_get_fails "https://example.com" 5)
                   initial) =
     [RequestsGet "https://example.com" 10 None;
      RequestsGet "https://example.com" 10 None;
      RequestsGet "https://example.com" 10 None]
  /\ fst (check_latency Stub.interrupted "https://example.com" 5 initial) =
       Raise (BaseExn "KeyboardInterrupt" "stop").
Proof.
  destruct (check_latency_aborts Stub.third_get_fails "https://example.com" 5
              initial 2 (Exn "ReadTimeout" "read timed out") eq_refl)
    as (Hcaught & _ & Hsent).
  - simpl. lia.
  - intros i Hi. exists (MkResponse 200).
    destruct i as [|[|i]]; [reflexivity | reflexivity | lia].
  - reflexivity.
  - destruct (check_latency_aborts Stub.interrupted "https://example.com" 5
                initial 0 (BaseExn "KeyboardInterrupt" "stop") eq_refl)
      as (_ & Hpass & _).
    + simpl. lia.
    + intros i Hi. lia.
    + reflexivity.
    + exact (conj (Hcaught eq_refl) (conj Hsent (Hpass eq_refl))).
Defined.

(** ** The messaging context across tool calls *)

Create HintDb context_frame.

Lemma context_ret {A} (a : A) : preserves_context (ret a).
Proof. intro s. reflexivity. Qed.

Lemma context_raise {A} (e : exn) : preserves_context (@raise A e).
Proof. intro s. reflexivity. Qed.

Lemma context_bind {A B} (m : Py A) (k : A -> Py B) :
  preserves_context m -> (forall a, preserves_context (k a)) ->
  preserves_context (bind m k).
Proof.
  intros Hm Hk s. unfold bind. specialize (Hm s).
  destruct (m s) as [[a|e] s']; cbn [snd] in *.
  - now rewrite Hk.
  - assumption.
Qed.

Lemma context_try {A} (body : Py A) (handler : exn -> Py A) :
  preserves_context body -> (forall e, preserves_context (handler e)) ->
  preserves_context (try_except body handler).
Proof.
  intros Hm Hk s. unfold try_except. specialize (Hm s).
  destruct (body s) as [[a|e] s']; cbn [snd] in *.
  - assumption.
  - destruct (is_exception e); [now rewrite Hk | assumption].
Qed.

Lemma context_emit (e : event) : preserves_context (emit e).
Proof. intro s. reflexivity. Qed.

Lemma context_ask {A} (e : event) (answer : list event -> exn + A) :
  preserves_context (ask e answer).
Proof. intro s. unfold ask. now destruct (answer (trace s)). Qed.

Lemma context_import (h : Host) (m : string) :
  preserves_context (import_module h m).
Proof. intro s. unfold import_module. now destruct (installed h m). Qed.

Lemma context_getitem (name : string) :
  preserves_context (getitem_sandboxes name).
Proof.
  intro s. unfold getitem_sandboxes. now destruct (Dict.get name _).
Qed.

Lemma context_setitem (name : string) (info : Info) :
  preserves_context (setitem_sandboxes name info).
Proof. intro s. reflexivity. Qed.

Lemma context_get_sandboxes : preserves_context get_sandboxes.
Proof. intro s. reflexivity. Qed.

#[local] Hint Resolve context_ret context_raise context_emit context_ask
  context_import context_getitem context_setitem context_get_sandboxes
  : context_frame.

Ltac context_step :=
  lazymatch goal with
  | |- preserves_context (bind _ _) => apply context_bind; [| intro]
  | |- preserves_context (try_except _ _) => apply context_try; [| intro]
  | |- preserves_context (if ?b then _ else _) => destruct b
  | |- preserves_context (match ?x with _ => _ end) => destruct x
  | |- preserves_context _ => solve [auto with context_frame]
  end.

Ltac context_tac := cbv zeta; repeat context_step.

Lemma context_sample_loop h url n : forall times,
  preserves_context (sample_loop h url n times).
Proof.
  induction n as [|n IH]; intro times; cbn [sample_loop].
  - apply context_ret.
  - unfold call_time_time, call_requests_get. context_tac.
Qed.

Lemma context_invoke h (t : Tool) : preserves_context (invoke h t).
Proof.
  destruct t; cbn [invoke].
  - unfold provision_sandbox, print, call_Sandbox_create, call_time_time.
    context_tac.
  - unfold list_sandboxes. context_tac.
  - unfold run_command, print, call_commands_run. context_tac.
  - unfold deploy_app, print, time_sleep, call_commands_run. context_tac.
  - unfold verify_url, print, call_time_time, call_requests_get. context_tac.
  - unfold check_latency, truediv, extremum. context_tac.
    apply context_sample_loop.
  - apply context_ret.
Qed.

Lemma context_invoke_all h tools : forall s,
  context (invoke_all h tools s) = context s.
Proof.
  unfold invoke_all.
  induction tools as [|t tools IH]; intro s; cbn [fold_left].
  - reflexivity.
  - rewrite IH. apply context_invoke.
Qed.

(** X16.  No tool of [infra.py] writes the messaging globals, on any
    input, returning or raising.  So after [set_agent_context], which
    overwrites both globals and touches neither the registry nor anything
    outside, the context is the pair last set, however many tools are
    called afterwards; [send_message] returns its confirmation without
    reading it. *)
Theorem tools_keep_messaging_context
    (h : Host) (tools : list Tool) (agent_client : nat) (source_id : string)
    (s : State) :
  let s0 := snd (set_agent_context agent_client source_id s) in
  (forall t s', context (snd (invoke h t s')) = context s')
  /\ context (invoke_all h tools s0) = (Some agent_client, Some source_id)
  /\ _sandboxes s0 = _sandboxes s
  /\ trace s0 = trace s
  /\ (forall text,
        fst (send_message text (invoke_all h tools s0)) =
        fst (send_message text s)).
Proof.
  intro s0. subst s0. split; [|split; [|repeat split]].
  - intros t s'. apply context_invoke.
  - now rewrite context_invoke_all.
Qed.

(** ** From provisioning to deployment *)

(** X17.  [deploy_app] reads the handle and the URL from the record
    [provision_sandbox] stored.  After a successful provision under a name,
    a deployment on that name whose clone, install, build and probe exit
    with 0 sends all five commands to the sandbox just created and returns
    the success message ending in [https://8000-<id>.e2b.app] for that
    sandbox's identifier. *)
Theorem deploy_after_provision
    (h h' : Host) (name repo_url : string) (s : State) (sb : Sandbox)
    (r1 r2 r3 r4 r5 : CommandResult) :
  installed h "e2b_code_interpreter" = true ->
  has_credential h = true ->
  Sandbox_create h (create_history name s) 600 = inr sb ->
  let s1 := snd (provision_sandbox h name s) in
  commands_run h' (clone_history s1) sb (clone_command repo_url) None
    = inr r1 ->
  exit_code r1 = 0 ->
  commands_run h' (install_history sb repo_url s1) sb install_command
    (Some 120) = inr r2 ->
  exit_code r2 = 0 ->
  commands_run h' (build_history sb repo_url s1) sb build_command
    (Some 120) = inr r3 ->
  exit_code r3 = 0 ->
  commands_run h' (serve_history sb repo_url s1) sb serve_command None
    = inr r4 ->
  commands_run h' (probe_history sb repo_url s1) sb probe_command None
    = inr r5 ->
  exit_code r5 = 0 ->
  fst (deploy_app h' name repo_url s1) =
    Return (deployed_message ("https://8000-" ++ sandbox_id sb ++ ".e2b.app"))
  /\ filter is_remote (new_events (deploy_app h' name repo_url) s1) =
     pipeline sb repo_url.
Proof.
  intros Hi Hc Hr s1 H1 E1 H2 E2 H3 E3 H4 H5 E5.
  assert (Dict.get name (_sandboxes s1) =
          Some (info_of sb (time_time h (created_at_history name s))))
    as Hget.
  { subst s1. rewrite (provision_created h name s sb Hi Hc Hr).
    cbn [snd _sandboxes]. apply dict_get_set_same. }
  pose proof (deploy_probed h' name repo_url s1 _ Hget r1 r2 r3 r4 r5
                H1 E1 H2 E2 H3 E3 H4 H5) as Hrun.
  cbn [info_of info_sandbox info_base_url] in Hrun. rewrite E5 in Hrun.
  cbn [Z.eqb] in Hrun. split; [now rewrite Hrun|].
  rewrite (new_events_of_run _ _ _ _
             [Print "1️⃣ Cloning repository...";
              CommandsRun sb (clone_command repo_url) None;
              Print "2️⃣ Installing dependencies...";
              CommandsRun sb install_command (Some 120);
              Print "3️⃣ Building...";
              CommandsRun sb build_command (Some 120);
              Print "4️⃣ Starting server...";
              CommandsRun sb serve_command None;
              TimeSleep 3;
              CommandsRun sb probe_command None] Hrun);
    [reflexivity | trace_shape].
Qed.

Lemma deploy_after_provision_witness :
  fst (deploy_app Demo.healthy "web" Demo.repo Demo.one_sandbox) =
    Return (deployed_message "https://8000-ib3k9.e2b.app")
  /\ filter is_remote
       (new_events (deploy_app Demo.healthy "web" Demo.repo) Demo.one_sandbox) =
     pipeline Demo.web Demo.repo.
Proof.
  pose (ok := MkResult "done" EmptyString 0).
  exact (deploy_after_provision Demo.healthy Demo.healthy "web" Demo.repo
           initial Demo.web ok ok ok ok ok
           eq_refl eq_refl eq_refl eq_refl eq_refl eq_refl eq_refl
           eq_refl eq_refl eq_refl eq_refl eq_refl).
Defined.
